(** * gox: HTTP bootstrap, JSON helpers and health probes

    A shallow embedding of the Go packages [rest] (server bootstrap, JSON
    request/response helpers, request logging) and [probe] (health
    endpoints) of mirzakhany/gox, with the properties of its specification.

    Conventions.
    - Go [int] values are [Z]; Go [string] values are [string] (bytes).
    - A Go [error] is [option error]: [None] is [nil].
    - Mutation through pointers is explicit state passing: a function that
      mutates [*config] maps a [config] to the new [config].
    - Interfaces of the Go standard library that the code calls
      ([http.ResponseWriter]) are type classes, with the recorder of
      [net/http/httptest] as the reference instance. *)

From Stdlib Require Import ZArith List String Ascii Bool Lia.
From Stdlib Require Import DecimalString.
Import ListNotations.

Local Open Scope string_scope.
Local Open Scope list_scope.
Local Open Scope Z_scope.

(* ================================================================= *)
(** ** Strings *)

Module strings.

(** The double quote, as a one-byte string. *)
Definition dq : string := String (ascii_of_nat 34) EmptyString.

(** The line feed, as a one-byte string. *)
Definition nl : string := String (ascii_of_nat 10) EmptyString.

(** [q s] is [s] between double quotes, the way the Go sources spell the
    quoted parts of their raw string literals. *)
Definition q (s : string) : string := (dq ++ s ++ dq)%string.

(** [strings.HasPrefix]. *)
Definition HasPrefix (s pre : string) : bool := String.prefix pre s.

(** [strings.TrimPrefix]: [s] without the leading [pre], or [s]. *)
Definition TrimPrefix (s pre : string) : string :=
  if String.prefix pre s
  then String.substring (String.length pre)
         (String.length s - String.length pre)%nat s
  else s.

(** [%d] of [fmt]: a signed decimal numeral. *)
Definition Itoa (z : Z) : string := NilZero.string_of_int (Z.to_int z).

End strings.

(* ================================================================= *)
(** ** Errors *)

Module errors.

(** The error values that reach the code.  The two [io] sentinels are
    compared by identity in Go, so they are constructors of their own: an
    [errorString] with the same text is a different error. *)
Inductive error : Type :=
| errorString (s : string)                     (* errors.New, fmt.Errorf *)
| wrapError (msg : string) (err : error)       (* fmt.Errorf with %w *)
| EOF                                          (* io.EOF *)
| ErrUnexpectedEOF                             (* io.ErrUnexpectedEOF *)
| SyntaxError (msg : string) (Offset : Z)      (* *json.SyntaxError *)
| UnmarshalTypeError (Value Type_ : string) (Offset : Z)
                     (Struct Field : string).  (* *json.UnmarshalTypeError *)

(** The method [Error()]. *)
Definition Error (e : error) : string :=
  match e with
  | errorString s => s
  | wrapError msg _ => msg
  | EOF => "EOF"
  | ErrUnexpectedEOF => "unexpected EOF"
  | SyntaxError msg _ => msg
  | UnmarshalTypeError v t _ s f =>
      if (String.eqb s EmptyString && String.eqb f EmptyString)%bool
      then ("json: cannot unmarshal " ++ v ++ " into Go value of type " ++ t)%string
      else ("json: cannot unmarshal " ++ v ++ " into Go struct field "
              ++ s ++ "." ++ f ++ " of type " ++ t)%string
  end.

(** [errors.Is(err, io.EOF)]: some error of the chain is the sentinel. *)
Fixpoint Is_EOF (e : error) : bool :=
  match e with
  | EOF => true
  | wrapError _ e' => Is_EOF e'
  | _ => false
  end.

(** [errors.Is(err, io.ErrUnexpectedEOF)]. *)
Fixpoint Is_ErrUnexpectedEOF (e : error) : bool :=
  match e with
  | ErrUnexpectedEOF => true
  | wrapError _ e' => Is_ErrUnexpectedEOF e'
  | _ => false
  end.

(** [errors.As(err, &syntaxError)]: the first [*json.SyntaxError] of the
    chain; the code reads its [Offset]. *)
Fixpoint As_SyntaxError (e : error) : option Z :=
  match e with
  | SyntaxError _ off => Some off
  | wrapError _ e' => As_SyntaxError e'
  | _ => None
  end.

(** [errors.As(err, &unmarshalTypeError)]: the first
    [*json.UnmarshalTypeError] of the chain; the code reads [Field] and
    [Offset]. *)
Fixpoint As_UnmarshalTypeError (e : error) : option (string * Z) :=
  match e with
  | UnmarshalTypeError _ _ off _ f => Some (f, off)
  | wrapError _ e' => As_UnmarshalTypeError e'
  | _ => None
  end.

(** [err != io.EOF]: identity, no unwrapping. *)
Definition is_EOF (e : option error) : bool :=
  match e with
  | Some EOF => true
  | _ => false
  end.

End errors.

(* ================================================================= *)
(** ** net/http *)

Module http.

Definition StatusOK : Z := 200.
Definition StatusBadRequest : Z := 400.
Definition StatusUnauthorized : Z := 401.
Definition StatusForbidden : Z := 403.
Definition StatusNotFound : Z := 404.
Definition StatusConflict : Z := 409.
Definition StatusInternalServerError : Z := 500.

(** [http.StatusText], at the one code the sources pass. *)
Definition StatusText_InternalServerError : string := "Internal Server Error".

(** The fields of [*http.Request] that the sources read. *)
Record Request : Type := {
  Method : string;
  URL_Path : string;
  URL_RawQuery : string;
  ProtoMajor : Z;
  Body : string
}.

(** [http.ResponseWriter], as the sources use it: [w.Header().Set(k, v)],
    [w.Write(b)] and [w.WriteHeader(code)]. *)
Class ResponseWriter (W : Type) : Type := {
  Header_Set : string -> string -> W -> W;
  Write : string -> W -> W;
  WriteHeader : Z -> W -> W
}.

(** [httptest.ResponseRecorder]: the first [WriteHeader] fixes the status,
    later ones are ignored; a [Write] before any [WriteHeader] fixes it at
    200; every [Write] appends to the body. *)
Record ResponseRecorder : Type := {
  Code : Z;
  HeaderMap : list (string * string);
  RBody : string;
  wroteHeader : bool
}.

Definition NewRecorder : ResponseRecorder :=
  {| Code := 200; HeaderMap := []; RBody := EmptyString; wroteHeader := false |}.

Fixpoint header_set (k v : string) (h : list (string * string))
  : list (string * string) :=
  match h with
  | [] => [(k, v)]
  | (k', v') :: h' =>
      if String.eqb k k' then (k, v) :: h' else (k', v') :: header_set k v h'
  end.

Definition rec_Header_Set (k v : string) (rw : ResponseRecorder) : ResponseRecorder :=
  {| Code := Code rw; HeaderMap := header_set k v (HeaderMap rw);
     RBody := RBody rw; wroteHeader := wroteHeader rw |}.

Definition rec_WriteHeader (code : Z) (rw : ResponseRecorder) : ResponseRecorder :=
  if wroteHeader rw then rw
  else {| Code := code; HeaderMap := HeaderMap rw;
          RBody := RBody rw; wroteHeader := true |}.

Definition rec_Write (b : string) (rw : ResponseRecorder) : ResponseRecorder :=
  let rw1 := rec_WriteHeader 200 rw in
  {| Code := Code rw1; HeaderMap := HeaderMap rw1;
     RBody := (RBody rw1 ++ b)%string; wroteHeader := wroteHeader rw1 |}.

#[export] Instance recorder_writer : ResponseWriter ResponseRecorder := {
  Header_Set := rec_Header_Set;
  Write := rec_Write;
  WriteHeader := rec_WriteHeader
}.

End http.

(* ================================================================= *)
(** ** Package probe *)

Module probe.
Import strings errors http.

(** [type Type int] with [Readiness = iota] and [Aliveness]. *)
Definition Type_ : Type := Z.
Definition Readiness : Type_ := 0.
Definition Aliveness : Type_ := 1.

Section Probes.

(** What the probe functions read and change when they run. *)
Variable World : Type.

(** [type Probe struct { probe Type; handler func() error }]. *)
Record Probe : Type := {
  probe : Type_;
  handler : World -> option error * World
}.

Definition WithProbe (probeType : Type_)
    (handler : World -> option error * World) : Probe :=
  {| probe := probeType; handler := handler |}.

(** [checkProbes]: the loop over [probes], with its [continue] and its
    early [return err]. *)
Fixpoint checkProbes (probes : list Probe) (t : Type_) (s : World)
  : option error * World :=
  match probes with
  | [] => (None, s)
  | c :: rest =>
      if negb (probe c =? t) then checkProbes rest t s
      else match handler c s with
           | (Some err, s') => (Some err, s')
           | (None, s') => checkProbes rest t s'
           end
  end.

(** [func(w http.ResponseWriter, r *http.Request)] over the probes' world. *)
Definition HandlerFunc : Type :=
  forall W : Type, ResponseWriter W -> W -> Request -> World -> W * World.

(** [fmt.Sprintf(`{"status": "%s"}`, err)]. *)
Definition failureBody (err : error) : string :=
  ("{" ++ q "status" ++ ": " ++ dq ++ Error err ++ dq ++ "}")%string.

Definition readyBody : string := ("{" ++ q "status" ++ ": " ++ q "ready" ++ "}")%string.
Definition aliveBody : string := ("{" ++ q "status" ++ ": " ++ q "alive" ++ "}")%string.

(** The handler registered at [/ready].  The failure branch does not
    return: the two success statements run after it as well. *)
Definition readyHandler (probes : list Probe) : HandlerFunc :=
  fun W _ w r s =>
    let '(err, s1) := checkProbes probes Readiness s in
    let w1 := match err with
              | Some e => Write (failureBody e) (WriteHeader StatusInternalServerError w)
              | None => w
              end in
    (Write readyBody (WriteHeader StatusOK w1), s1).

(** The handler registered at [/alive]. *)
Definition aliveHandler (probes : list Probe) : HandlerFunc :=
  fun W _ w r s =>
    let '(err, s1) := checkProbes probes Aliveness s in
    let w1 := match err with
              | Some e => Write (failureBody e) (WriteHeader StatusInternalServerError w)
              | None => w
              end in
    (Write aliveBody (WriteHeader StatusOK w1), s1).

(** [*http.ServeMux] with the plain-path patterns the package registers:
    a table from path to handler. *)
Definition ServeMux : Type := list (string * HandlerFunc).

Definition NewServeMux : ServeMux := [].

Fixpoint mux_lookup (mux : ServeMux) (path : string) : option HandlerFunc :=
  match mux with
  | [] => None
  | (p, h) :: mux' => if String.eqb p path then Some h else mux_lookup mux' path
  end.

(** [mux.HandleFunc(pattern, h)]; [None] is its panic on a pattern that is
    registered already. *)
Definition HandleFunc (pattern : string) (h : HandlerFunc) (mux : ServeMux)
  : option ServeMux :=
  match mux_lookup mux pattern with
  | Some _ => None
  | None => Some (mux ++ [(pattern, h)])
  end.

(** [http.NotFound]. *)
Definition NotFound : HandlerFunc :=
  fun W _ w r s =>
    (Write ("404 page not found" ++ nl)%string
       (WriteHeader StatusNotFound
          (Header_Set "X-Content-Type-Options" "nosniff"
             (Header_Set "Content-Type" "text/plain; charset=utf-8" w))), s).

(** [mux.ServeHTTP(w, r)]. *)
Definition ServeHTTP (mux : ServeMux) : HandlerFunc :=
  fun W RW w r s =>
    match mux_lookup mux (URL_Path r) with
    | Some h => h W RW w r s
    | None => NotFound W RW w r s
    end.

(** [New(router, probes...)]; [router = None] is the [nil] router. *)
Definition New (router : option ServeMux) (probes : list Probe) : option ServeMux :=
  let mux := match router with
             | None => NewServeMux
             | Some m => m
             end in
  match HandleFunc "/ready" (readyHandler probes) mux with
  | None => None
  | Some mux1 => HandleFunc "/alive" (aliveHandler probes) mux1
  end.

(** A [GET] request for [path], as [httptest.NewRequest] builds it. *)
Definition get (path : string) : Request :=
  {| Method := "GET"; URL_Path := path; URL_RawQuery := EmptyString;
     ProtoMajor := 1; Body := EmptyString |}.

(** The response the probe handler of [New(nil, probes...)] records for
    [GET path], and the world the probes leave. *)
Definition serve (probes : list Probe) (path : string) (s : World)
  : option (ResponseRecorder * World) :=
  match New None probes with
  | None => None
  | Some mux => Some (ServeHTTP mux _ _ NewRecorder (get path) s)
  end.

End Probes.

Arguments probe {World} _.
Arguments handler {World} _.
Arguments WithProbe {World} _ _.
Arguments checkProbes {World} _ _ _.
Arguments readyHandler {World} _.
Arguments aliveHandler {World} _.
Arguments New {World} _ _.
Arguments ServeHTTP {World} _.
Arguments serve {World} _ _ _.

End probe.

(* ================================================================= *)
(** ** go.uber.org/zap *)

Module zap.

(** A [*zap.Logger], by identity. *)
Definition Logger : Type := nat.

Inductive Level : Type := InfoLevel | ErrorLevel.

(** [zap.Int], [zap.String], [zap.Duration]. *)
Inductive Field : Type :=
| Int (key : string) (val : Z)
| Str (key : string) (val : string)
| Duration (key : string) (val : Z).

(** One call of [logger.Info] or [logger.Error]. *)
Record Entry : Type := {
  logger : Logger;
  level : Level;
  message : string;
  fields : list Field
}.

End zap.

(* ================================================================= *)
(** ** encoding/json *)

Module json.
Import strings errors.

(** [*json.Decoder]: the unread input and the strictness flag that
    [DisallowUnknownFields] sets.  [NewDecoder] leaves the flag off. *)
Record Decoder : Type := {
  buf : string;
  disallowUnknownFields : bool
}.

Definition NewDecoder (r : string) : Decoder :=
  {| buf := r; disallowUnknownFields := false |}.

Definition DisallowUnknownFields (d : Decoder) : Decoder :=
  {| buf := buf d; disallowUnknownFields := true |}.

(** What [encoding/json] does at the Go type [T] of a decode target:
    [Decode] is [dec.Decode(&target)], [DecodeEmpty] is
    [dec.Decode(&struct{}{})] on the same decoder. *)
Record Codec (T : Type) : Type := {
  Decode : Decoder -> T -> option error * Decoder * T;
  DecodeEmpty : Decoder -> option error * Decoder
}.

Arguments Decode {T} _ _ _.
Arguments DecodeEmpty {T} _ _.

End json.

(** *** A reference decoder for flat objects

    The behaviour of [encoding/json] on one fragment of its input
    language, to run the helpers on concrete request bodies: a body is a
    sequence of objects [{"k":v, ...}], keys over [a-z0-9_], values
    unsigned decimal integers of at most 18 digits or strings over
    [a-z0-9_], with optional white space between tokens; the target is an
    anonymous struct of [int] fields tagged with such keys. *)

Module flatjson.
Import strings errors json.

(** The target: JSON field name and current value, in declaration order. *)
Definition Struct : Type := list (string * Z).

(** A value of the fragment. *)
Inductive Value : Type :=
| VInt (n : Z)
| VStr (s : string).

(** A member as the decoder meets it: key, value, and how many bytes of
    the input are left after the value. *)
Definition Member : Type := (string * Value * nat)%type.

Definition is_ws (c : ascii) : bool :=
  let n := nat_of_ascii c in
  ((n =? 32) || (n =? 9) || (n =? 13) || (n =? 10))%nat.

Definition is_digit (c : ascii) : bool :=
  let n := nat_of_ascii c in ((48 <=? n) && (n <=? 57))%nat.

Definition is_key_char (c : ascii) : bool :=
  let n := nat_of_ascii c in
  (((97 <=? n) && (n <=? 122)) || is_digit c || (n =? 95))%nat.

Fixpoint skip_ws (s : string) : string :=
  match s with
  | String c s' => if is_ws c then skip_ws s' else s
  | EmptyString => s
  end.

Fixpoint take_while (p : ascii -> bool) (s : string) : string * string :=
  match s with
  | String c s' =>
      if p c then let '(a, b) := take_while p s' in (String c a, b)
      else (EmptyString, s)
  | EmptyString => (EmptyString, EmptyString)
  end.

(** One expected byte. *)
Definition expect (n : nat) (s : string) : option string :=
  match s with
  | String c s' => if (nat_of_ascii c =? n)%nat then Some s' else None
  | EmptyString => None
  end.

(** A string literal of the fragment: no escape in it. *)
Definition parse_key (s : string) : option (string * string) :=
  match expect 34 s with
  | None => None
  | Some s1 =>
      let '(k, s2) := take_while is_key_char s1 in
      match expect 34 s2 with
      | None => None
      | Some s3 => Some (k, s3)
      end
  end.

Fixpoint digits_value (s : string) (acc : Z) : Z :=
  match s with
  | String c s' => digits_value s' (10 * acc + (Z.of_nat (nat_of_ascii c) - 48))
  | EmptyString => acc
  end.

Definition parse_int (s : string) : option (Z * string) :=
  let '(ds, rest) := take_while is_digit s in
  match ds with
  | EmptyString => None
  | String c ds' =>
      if ((nat_of_ascii c =? 48)%nat && negb (String.eqb ds' EmptyString))%bool
      then None
      else if (18 <? String.length ds)%nat then None
      else Some (digits_value ds 0, rest)
  end.

Definition parse_value (s : string) : option (Value * string) :=
  match expect 34 s with
  | Some _ =>
      match parse_key s with
      | None => None
      | Some (v, rest) => Some (VStr v, rest)
      end
  | None =>
      match parse_int s with
      | None => None
      | Some (n, rest) => Some (VInt n, rest)
      end
  end.

(** [key : value], with the white space around the colon. *)
Definition parse_member (s : string) : option (Member * string) :=
  match parse_key s with
  | None => None
  | Some (k, s1) =>
      match expect 58 (skip_ws s1) with
      | None => None
      | Some s2 =>
          match parse_value (skip_ws s2) with
          | None => None
          | Some (v, s3) => Some ((k, v, String.length s3), s3)
          end
      end
  end.

(** The members after the first one, up to and with the closing brace. *)
Fixpoint parse_more (fuel : nat) (s : string) : option (list Member * string) :=
  match fuel with
  | O => None
  | S fuel' =>
      let s0 := skip_ws s in
      match expect 125 s0 with
      | Some rest => Some ([], rest)
      | None =>
          match expect 44 s0 with
          | None => None
          | Some s1 =>
              match parse_member (skip_ws s1) with
              | None => None
              | Some (m, s2) =>
                  match parse_more fuel' s2 with
                  | None => None
                  | Some (ms, rest) => Some (m :: ms, rest)
                  end
              end
          end
      end
  end.

(** One object at the head of [s], which starts at a non-space byte. *)
Definition parse_object (s : string) : option (list Member * string) :=
  match expect 123 s with
  | None => None
  | Some s1 =>
      let s2 := skip_ws s1 in
      match expect 125 s2 with
      | Some rest => Some ([], rest)
      | None =>
          match parse_member s2 with
          | None => None
          | Some (m, s3) =>
              match parse_more (String.length s3) s3 with
              | None => None
              | Some (ms, rest) => Some (m :: ms, rest)
              end
          end
      end
  end.

Fixpoint has_field (k : string) (t : Struct) : bool :=
  match t with
  | [] => false
  | (k', _) :: t' => String.eqb k k' || has_field k t'
  end.

Fixpoint set_field (k : string) (v : Z) (t : Struct) : Struct :=
  match t with
  | [] => []
  | (k', v') :: t' =>
      if String.eqb k k' then (k', v) :: t' else (k', v') :: set_field k v t'
  end.

(** The decoder keeps the first error it meets and goes on. *)
Definition saveError (saved : option error) (e : error) : option error :=
  match saved with
  | None => Some e
  | Some _ => saved
  end.

(** The members are stored in input order; [len] is the length of the
    input the decoder started from, for the offsets.  A string is not
    stored in an [int] field: that is a type error at the offset where the
    string ends.  A key without a field is skipped, unless the decoder is
    strict: then it is an error. *)
Fixpoint store (strict : bool) (len : nat) (ms : list Member) (t : Struct)
    (saved : option error) : option error * Struct :=
  match ms with
  | [] => (saved, t)
  | (k, v, rest) :: ms' =>
      if has_field k t then
        match v with
        | VInt n => store strict len ms' (set_field k n t) saved
        | VStr _ =>
            store strict len ms' t
              (saveError saved
                 (UnmarshalTypeError "string" "int" (Z.of_nat (len - rest))
                    EmptyString k))
        end
      else if strict then
        store strict len ms' t
          (saveError saved (errorString ("json: unknown field " ++ q k)))
      else store strict len ms' t saved
  end.

Definition keys_ok (t : Struct) : bool :=
  forallb (fun f => snd (take_while is_key_char (fst f)) =? EmptyString)%string t.

(** [dec.Decode(&target)] on the fragment; [None] outside of it. *)
Definition decode (d : Decoder) (t : Struct)
  : option (option error * Decoder * Struct) :=
  if negb (keys_ok t) then None
  else
    let s := skip_ws (buf d) in
    match s with
    | EmptyString =>
        Some (Some EOF, {| buf := s; disallowUnknownFields := disallowUnknownFields d |}, t)
    | _ =>
        match parse_object s with
        | None => None
        | Some (ms, rest) =>
            let '(err, t') :=
              store (disallowUnknownFields d) (String.length (buf d)) ms t None in
            Some (err, {| buf := rest; disallowUnknownFields := disallowUnknownFields d |}, t')
        end
    end.

(** The answer the model gives outside its fragment.  No statement below
    is about a body that reaches it. *)
Definition unmodelled : error := errorString "flatjson: input outside the modelled fragment".

Definition Decode (d : Decoder) (t : Struct) : option error * Decoder * Struct :=
  match decode d t with
  | Some res => res
  | None => (Some unmodelled, d, t)
  end.

(** [struct{}{}] has no field. *)
Definition DecodeEmpty (d : Decoder) : option error * Decoder :=
  fst (Decode d []).

Definition codec : Codec Struct :=
  {| json.Decode := Decode; json.DecodeEmpty := DecodeEmpty |}.

(** Whether the whole of [s] is in the fragment: a sequence of objects. *)
Fixpoint in_fragment (fuel : nat) (s : string) : bool :=
  match fuel with
  | O => false
  | S fuel' =>
      match skip_ws s with
      | EmptyString => true
      | s0 =>
          match parse_object s0 with
          | None => false
          | Some (_, rest) => in_fragment fuel' rest
          end
      end
  end.

End flatjson.

(* ================================================================= *)
(** ** github.com/go-chi/chi/middleware: the response-writer wrapper *)

Module middleware.
Import http.

(** [basicWriter], behind [middleware.WrapResponseWriter]: it forwards to
    the writer it wraps and remembers the first status code. *)
Record basicWriter (W : Type) : Type := {
  inner : W;
  bw_wroteHeader : bool;
  code : Z;
  bytes : Z
}.

Arguments inner {W} _.
Arguments bw_wroteHeader {W} _.
Arguments code {W} _.
Arguments bytes {W} _.

Definition NewWrapResponseWriter {W : Type} (w : W) (protoMajor : Z) : basicWriter W :=
  {| inner := w; bw_wroteHeader := false; code := 0; bytes := 0 |}.

Section Wrapper.
Context {W : Type} {RW : ResponseWriter W}.

Definition bw_WriteHeader (c : Z) (b : basicWriter W) : basicWriter W :=
  if bw_wroteHeader b then b
  else {| inner := WriteHeader c (inner b); bw_wroteHeader := true;
          code := c; bytes := bytes b |}.

Definition bw_Write (buf : string) (b : basicWriter W) : basicWriter W :=
  let b1 := bw_WriteHeader StatusOK b in
  {| inner := Write buf (inner b1); bw_wroteHeader := bw_wroteHeader b1;
     code := code b1; bytes := bytes b1 + Z.of_nat (String.length buf) |}.

Definition bw_Header_Set (k v : string) (b : basicWriter W) : basicWriter W :=
  {| inner := Header_Set k v (inner b); bw_wroteHeader := bw_wroteHeader b;
     code := code b; bytes := bytes b |}.

(** [ww.Status()]. *)
Definition Status (b : basicWriter W) : Z := code b.

#[export] Instance wrap_writer : ResponseWriter (basicWriter W) := {
  Header_Set := bw_Header_Set;
  Write := bw_Write;
  WriteHeader := bw_WriteHeader
}.

End Wrapper.

End middleware.

(* ================================================================= *)
(** ** github.com/go-chi/cors *)

Module cors.

(** The fields of [cors.Options] that the sources set. *)
Record Options : Type := {
  AllowedOrigins : list string;
  AllowedMethods : list string;
  AllowedHeaders : list string;
  ExposedHeaders : list string;
  AllowCredentials : bool;
  MaxAge : Z
}.

(** The zero value. *)
Definition zero : Options :=
  {| AllowedOrigins := []; AllowedMethods := []; AllowedHeaders := [];
     ExposedHeaders := []; AllowCredentials := false; MaxAge := 0 |}.

End cors.

(* ================================================================= *)
(** ** Package rest *)

Module rest.
Import strings errors http.

(** [Message] and its JSON text.  [quote] is the string encoder of
    [encoding/json]; the layout is that of a struct with the tags [code]
    and [message]. *)
Record Message : Type := {
  MCode : string;
  MMessage : string
}.

Definition Marshal_Message (quote : string -> string) (m : Message) : string + error :=
  inl ("{" ++ q "code" ++ ":" ++ quote (MCode m) ++ ","
           ++ q "message" ++ ":" ++ quote (MMessage m) ++ "}")%string.

(** [errCodeFromHttp]: the map literal and the lookup with its default. *)
Definition codeMap : list (Z * string) :=
  [ (StatusBadRequest, "ErrBadRequest");
    (StatusInternalServerError, "ErrInternalServer");
    (StatusUnauthorized, "ErrUnauthorized");
    (StatusConflict, "ErrAlreadyExist");
    (StatusForbidden, "ErrForbidden") ].

Fixpoint map_lookup (m : list (Z * string)) (k : Z) : option string :=
  match m with
  | [] => None
  | (k', v) :: m' => if k' =? k then Some v else map_lookup m' k
  end.

Definition errCodeFromHttp (code : Z) : string :=
  match map_lookup codeMap code with
  | Some c => c
  | None => "ErrInternalServer"
  end.

Section Writers.
Context {W : Type} {RW : ResponseWriter W}.

(** [WriteJSON]; [marshal] is [encoding/json] at the type of [v].  The
    encoder writes the text and a line feed, or nothing and returns the
    error, which [fmt.Fprintln] then writes. *)
Definition WriteJSON {V : Type} (marshal : V -> string + error)
    (w : W) (code : Z) (v : V) : W :=
  let w := Header_Set "Content-Type" "application/json" w in
  let w := WriteHeader code w in
  match marshal v with
  | inl text => Write (text ++ nl)%string w
  | inr err => Write (Error err ++ nl)%string w
  end.

Variable quote : string -> string.

Definition WriteMessage (w : W) (code : string) (message : string) : W :=
  WriteJSON (Marshal_Message quote) w StatusOK
    {| MCode := code; MMessage := message |}.

Definition WriteError (w : W) (code : Z) (message : string) : W :=
  WriteJSON (Marshal_Message quote) w code
    {| MCode := errCodeFromHttp code; MMessage := message |}.

Definition DefaultBadRequestHandler (w : W) (r : Request) (err : error) : W :=
  WriteError w StatusBadRequest (Error err).

End Writers.

Section Reader.
Context {T : Type}.

(** [encoding/json] at the type of the target. *)
Variable codec : json.Codec T.

(** [%q] of [fmt], that is [strconv.Quote]. *)
Variable Quote : string -> string.

(** The [switch] of [ReadJSON] on the error of the first [Decode]. *)
Definition decodeError (err : error) : Z * option error :=
  match As_SyntaxError err with
  | Some off =>
      (StatusBadRequest,
       Some (errorString ("request body contains badly-formed JSON (at position "
                            ++ Itoa off ++ ")")))
  | None =>
  if Is_ErrUnexpectedEOF err then
      (StatusBadRequest, Some (errorString "request body contains badly-formed JSON"))
  else
  match As_UnmarshalTypeError err with
  | Some (field, off) =>
      (StatusBadRequest,
       Some (errorString ("request body contains an invalid value for the "
                            ++ Quote field ++ " field (at position "
                            ++ Itoa off ++ ")")))
  | None =>
  if HasPrefix (Error err) "json: unknown field " then
      let fieldName := TrimPrefix (Error err) "json: unknown field " in
      (StatusBadRequest,
       Some (errorString ("request body contains unknown field " ++ fieldName)))
  else if Is_EOF err then
      (StatusBadRequest, Some (errorString "request body must not be empty"))
  else if String.eqb (Error err) "http: request body too large" then
      (StatusBadRequest, Some (errorString (Error err)))
  else
      (StatusBadRequest, Some (errorString StatusText_InternalServerError))
  end
  end.

(** [ReadJSON(r, target)]: the status, the error and the target as the
    decoder left it. *)
Definition ReadJSON (r : Request) (target : T) : (Z * option error) * T :=
  let dec := json.NewDecoder (Body r) in
  let '(err, dec, target) := json.Decode codec dec target in
  match err with
  | Some err => (decodeError err, target)
  | None =>
      let '(err, dec) := json.DecodeEmpty codec dec in
      if negb (is_EOF err) then
        ((StatusBadRequest,
          Some (errorString "request body must only contain a single JSON object")),
         target)
      else ((StatusOK, None), target)
  end.

End Reader.

(** A [POST] request with the given body. *)
Definition post (body : string) : Request :=
  {| Method := "POST"; URL_Path := "/"; URL_RawQuery := EmptyString;
     ProtoMajor := 1; Body := body |}.

(** *** Handlers and the request logger *)

Section Server.

(** The state of the application behind the handlers. *)
Variable World : Type.

(** What a handler can read and change besides its response writer: the
    monotonic clock, the calls made on loggers, and the application. *)
Record Sys : Type := {
  now : Z;
  logs : list zap.Entry;
  app : World
}.

(** [logger.Info] and [logger.Error]. *)
Definition log_at (lvl : zap.Level) (logger : zap.Logger) (msg : string)
    (fields : list zap.Field) (s : Sys) : Sys :=
  {| now := now s;
     logs := logs s ++ [ {| zap.logger := logger; zap.level := lvl;
                            zap.message := msg; zap.fields := fields |} ];
     app := app s |}.

Definition Info := log_at zap.InfoLevel.
Definition Error_ := log_at zap.ErrorLevel.

(** [http.Handler]: [ServeHTTP(w, r)] for any response writer. *)
Definition Handler : Type :=
  forall W : Type, ResponseWriter W -> W -> Request -> Sys -> W * Sys.

(** [func(next http.Handler) http.Handler]. *)
Definition Middleware : Type := Handler -> Handler.

(** [RequestLogger(logger)]. *)
Definition RequestLogger (logger : zap.Logger) : Middleware :=
  fun next W RW w r s =>
    let path := URL_Path r in
    let method := Method r in
    let query := URL_RawQuery r in
    let ww := middleware.NewWrapResponseWriter w (ProtoMajor r) in
    let t0 := now s in
    let '(ww, s) := next _ (middleware.wrap_writer (RW := RW)) ww r s in
    let latency := now s - t0 in
    let logFunc :=
      if middleware.Status ww >=? StatusInternalServerError
      then Error_ logger else Info logger in
    (middleware.inner ww,
     logFunc ("request handled: " ++ method ++ " " ++ path)%string
       [ zap.Int "code" (middleware.Status ww);
         zap.Str "query" query;
         zap.Duration "latency" latency ] s).

(** *** Configuration and start-up *)

Definition DefaultGracefulShutdownSec : Z := 5.
Definition DefaultPort : string := "8080".

(** The logger of the configuration.  [nopLogger] is the no-op logger
    that [RunHttpServer] allocates for itself: no argument of
    [WithZapLogger] can be that pointer. *)
Inductive LoggerRef : Type :=
| nopLogger
| userLogger (l : zap.Logger).

Record config : Type := {
  port : string;
  middlewares : list Middleware;
  allowedHosts : list string;
  setCors : bool;
  corsOptions : cors.Options;
  logger : LoggerRef
}.

(** [type Option func(c) error], with [c] a pointer to [config]. *)
Definition Option : Type := config -> config * option error.

Definition WithPort (port_ : string) : Option :=
  fun c =>
    ({| port := port_; middlewares := middlewares c;
        allowedHosts := allowedHosts c; setCors := setCors c;
        corsOptions := corsOptions c; logger := logger c |}, None).

Definition WithMiddlewares (middlewares_ : list Middleware) : Option :=
  fun c =>
    ({| port := port c; middlewares := middlewares_;
        allowedHosts := allowedHosts c; setCors := setCors c;
        corsOptions := corsOptions c; logger := logger c |}, None).

Definition WithAllowedHosts (allowedHosts_ : list string) : Option :=
  fun c =>
    ({| port := port c; middlewares := middlewares c;
        allowedHosts := allowedHosts_; setCors := setCors c;
        corsOptions := corsOptions c; logger := logger c |}, None).

Definition WithCoreOptions (corsOptions_ : cors.Options) : Option :=
  fun c =>
    ({| port := port c; middlewares := middlewares c;
        allowedHosts := allowedHosts c; setCors := true;
        corsOptions := corsOptions_; logger := logger c |}, None).

Definition WithZapLogger (logger_ : zap.Logger) : Option :=
  fun c =>
    ({| port := port c; middlewares := middlewares c;
        allowedHosts := allowedHosts c; setCors := setCors c;
        corsOptions := corsOptions c; logger := userLogger logger_ |}, None).

(** The middlewares of [chi] and the handler of [cors] that the package
    installs; what they do to a request is theirs. *)
Record Library : Type := {
  Timeout : Z -> Middleware;
  RequestID : Middleware;
  RealIP : Middleware;
  Recoverer : Middleware;
  SetHeader : string -> string -> Middleware;
  NoCache : Middleware;
  cors_Handler : cors.Options -> Middleware
}.

Variable lib : Library.

Definition DefaultCorsOption : cors.Options :=
  {| cors.AllowedOrigins := [];
     cors.AllowedMethods := ["GET"; "POST"; "PUT"; "PATCH"; "DELETE"; "OPTIONS"];
     cors.AllowedHeaders := ["Accept"; "Authorization"; "Content-Type"; "X-CSRF-Token"];
     cors.ExposedHeaders := ["Link"];
     cors.AllowCredentials := true;
     cors.MaxAge := 300 |}.

Definition DefaultMiddlewares : list Middleware :=
  [ Timeout lib 60;
    RequestID lib;
    RealIP lib;
    Recoverer lib;
    SetHeader lib "X-Content-Type-Options" "nosniff";
    SetHeader lib "X-Frame-Options" "deny";
    NoCache lib ].

(** [chi.Router], by its middleware stack; [Use] appends to it. *)
Record Mux : Type := { stack : list Middleware }.

Definition NewRouter : Mux := {| stack := [] |}.

Definition Use (mws : list Middleware) (mx : Mux) : Mux :=
  {| stack := stack mx ++ mws |}.

(** [http.Server] with the two fields the code sets. *)
Record Server : Type := {
  Addr : string;
  SHandler : Handler
}.

(** [net.JoinHostPort] with the empty host. *)
Definition JoinHostPort_empty (port : string) : string := (":" ++ port)%string.

(** The loop over the options: [inr err] is the call of [log.Fatalf]. *)
Fixpoint applyOptions (options : list Option) (cfg : config) : config + error :=
  match options with
  | [] => inl cfg
  | o :: options' =>
      match o cfg with
      | (_, Some err) => inr err
      | (cfg', None) => applyOptions options' cfg'
      end
  end.

(** What [RunHttpServer] has built when it starts to serve. *)
Record Started : Type := {
  stdlog : list string;
  apiRouter : Mux;
  srv : Server
}.

Inductive Startup : Type :=
| Fatal (err : error)
| Serve (st : Started).

(** [RunHttpServer], from its first line to the construction of
    [http.Server].  Serving on a goroutine and the shutdown on
    cancellation come after that and are not part of the embedding. *)
Definition RunHttpServer (createHandler : Mux -> Handler)
    (options : list Option) : Startup :=
  let cfg := {| port := DefaultPort; middlewares := []; allowedHosts := [];
                setCors := false; corsOptions := cors.zero;
                logger := nopLogger |} in
  match applyOptions options cfg with
  | inr err => Fatal err
  | inl cfg =>
      let apiRouter := NewRouter in
      let apiRouter :=
        if (List.length (middlewares cfg) =? 0)%nat
        then Use DefaultMiddlewares apiRouter
        else apiRouter in
      let apiRouter :=
        if negb (setCors cfg)
        then Use [cors_Handler lib DefaultCorsOption] apiRouter
        else apiRouter in
      let '(out, apiRouter) :=
        match logger cfg with
        | nopLogger => (["WARN: no logger is set"], apiRouter)
        | userLogger l => ([], Use [RequestLogger l] apiRouter)
        end in
      Serve {| stdlog := out;
               apiRouter := apiRouter;
               srv := {| Addr := JoinHostPort_empty (port cfg);
                         SHandler := createHandler apiRouter |} |}
  end.

End Server.

Arguments now {World} _.
Arguments logs {World} _.
Arguments app {World} _.
Arguments Info {World} _ _ _ _.
Arguments Error_ {World} _ _ _ _.
Arguments RequestLogger {World} _ _ _ _ _ _ _.
Arguments port {World} _.
Arguments middlewares {World} _.
Arguments allowedHosts {World} _.
Arguments setCors {World} _.
Arguments corsOptions {World} _.
Arguments logger {World} _.
Arguments WithPort {World} _ _.
Arguments WithMiddlewares {World} _ _.
Arguments WithAllowedHosts {World} _ _.
Arguments WithCoreOptions {World} _ _.
Arguments WithZapLogger {World} _ _.
Arguments cors_Handler {World} _ _.
Arguments DefaultMiddlewares {World} _.
Arguments stack {World} _.
Arguments NewRouter {World}.
Arguments Use {World} _ _.
Arguments Addr {World} _.
Arguments SHandler {World} _.
Arguments applyOptions {World} _ _.
Arguments stdlog {World} _.
Arguments apiRouter {World} _.
Arguments srv {World} _.
Arguments Fatal {World} _.
Arguments Serve {World} _.
Arguments RunHttpServer {World} _ _ _.

End rest.

(* ================================================================= *)
(** ** The vocabulary of the specification *)

(** *** Health probes *)

Module probe_spec.
Import strings errors http probe.

Section Words.
Variable World : Type.

(** The probes of kind [t], in registration order. *)
Definition ofKind (t : Type_) (probes : list (Probe World)) : list (Probe World) :=
  filter (fun c => probe c =? t) probes.

(** "Runs the probes in order, stopping at and returning the first
    failure": each probe runs in the world its predecessor left. *)
Fixpoint firstFailure (ps : list (Probe World)) (s : World) : option error * World :=
  match ps with
  | [] => (None, s)
  | c :: ps' =>
      match handler c s with
      | (Some e, s') => (Some e, s')
      | (None, s') => firstFailure ps' s'
      end
  end.

(** All of [ps] pass when run in order from [s], and leave [s']. *)
Fixpoint allPass (ps : list (Probe World)) (s : World) : option World :=
  match ps with
  | [] => Some s
  | c :: ps' =>
      match handler c s with
      | (Some _, _) => None
      | (None, s') => allPass ps' s'
      end
  end.

(** A check that fails with [e], and one that passes. *)
Definition failing (e : error) : World -> option error * World := fun s => (Some e, s).
Definition passing : World -> option error * World := fun s => (None, s).

End Words.

Arguments ofKind {World} _ _.
Arguments firstFailure {World} _ _.
Arguments allPass {World} _ _.
Arguments failing {World} _ _.
Arguments passing {World} _.

(** The endpoint of a kind and the body it reports success with. *)
Definition pathOf (t : Type_) : string :=
  if t =? Readiness then "/ready" else "/alive".

Definition successBody (t : Type_) : string :=
  if t =? Readiness then readyBody else aliveBody.

(** A response with status [code] and body [body], no header set. *)
Definition response (code : Z) (body : string) : ResponseRecorder :=
  {| Code := code; HeaderMap := []; RBody := body; wroteHeader := true |}.

(** A probe that writes its name in a journal and answers [r]. *)
Definition journaled (name : string) (r : option error)
  : list string -> option error * list string :=
  fun j => (r, j ++ [name]).

End probe_spec.

(** *** Server bootstrap and helpers *)

Module rest_spec.
Import strings errors http rest.

(** A string of letters and digits: the JSON string encoder and [%q]
    put it between quotes as it is. *)
Definition is_alnum (c : ascii) : bool :=
  let n := nat_of_ascii c in
  (((48 <=? n) && (n <=? 57)) || ((65 <=? n) && (n <=? 90))
   || ((97 <=? n) && (n <=? 122)))%nat.

Fixpoint plain (s : string) : bool :=
  match s with
  | EmptyString => true
  | String c s' => is_alnum c && plain s'
  end.

(** The status codes of the table of [errCodeFromHttp]. *)
Definition mapped (code : Z) : bool :=
  (400 =? code) || (401 =? code) || (403 =? code) || (409 =? code) || (500 =? code).

(** The line the encoder writes for a message whose two strings are
    quoted as [cq] and [mq]: the JSON object and a line feed. *)
Definition envelope (cq mq : string) : string :=
  (("{" ++ q "code" ++ ":" ++ cq ++ "," ++ q "message" ++ ":" ++ mq ++ "}") ++ nl)%string.

(** The recorder after [WriteJSON] on a fresh one. *)
Definition jsonResponse (code : Z) (body : string) : ResponseRecorder :=
  {| Code := code; HeaderMap := [("Content-Type", "application/json")];
     RBody := body; wroteHeader := true |}.

(** The calls a handler makes on its response writer. *)
Inductive Call : Type :=
| CHeaderSet (k v : string)
| CWrite (b : string)
| CWriteHeader (code : Z).

Definition call {W : Type} {RW : ResponseWriter W} (c : Call) (w : W) : W :=
  match c with
  | CHeaderSet k v => Header_Set k v w
  | CWrite b => Write b w
  | CWriteHeader code => WriteHeader code w
  end.

Definition replay {W : Type} {RW : ResponseWriter W} (cs : list Call) (w : W) : W :=
  fold_left (fun w c => call c w) cs w.

(** A recorder nothing was written to yet, with the headers [h] set. *)
Definition pending (h : list (string * string)) : ResponseRecorder :=
  {| Code := 200; HeaderMap := h; RBody := EmptyString; wroteHeader := false |}.

(** The wrapper [b] stands in front of the recorder [rw] and has seen
    what [rw] has: the status it reports is the status of [rw] once one is
    fixed, and 0 before that, when [rw] still holds its default of 200. *)
Definition tracks (b : middleware.basicWriter ResponseRecorder)
    (rw : ResponseRecorder) : Prop :=
  middleware.inner b = rw
  /\ middleware.bw_wroteHeader b = wroteHeader rw
  /\ (wroteHeader rw = true -> middleware.code b = Code rw)
  /\ (wroteHeader rw = false -> middleware.code b = 0 /\ Code rw = 200).

(** The status [RequestLogger] sees on a recorder it wrapped when it was
    pending. *)
Definition seen (rw : ResponseRecorder) : Z :=
  if wroteHeader rw then Code rw else 0.

Section Words.
Variable World : Type.

(** A handler that decides on its calls from the request and the state:
    it makes them on whatever writer it is given. *)
Definition scripted (f : Request -> Sys World -> list Call * Sys World)
  : Handler World :=
  fun W RW w r s => let '(cs, s') := f r s in (replay cs w, s').

(** The line [RequestLogger] writes for [r] when the status it saw is
    [status] and the handler took [latency]. *)
Definition logLine (logger : zap.Logger) (r : Request) (status latency : Z)
  : zap.Entry :=
  {| zap.logger := logger;
     zap.level := if status >=? 500 then zap.ErrorLevel else zap.InfoLevel;
     zap.message := ("request handled: " ++ Method r ++ " " ++ URL_Path r)%string;
     zap.fields := [ zap.Int "code" status;
                     zap.Str "query" (URL_RawQuery r);
                     zap.Duration "latency" latency ] |}.

(** One call of a constructor of [Option]. *)
Inductive OptionCall : Type :=
| CallWithPort (p : string)
| CallWithMiddlewares (ms : list (Middleware World))
| CallWithAllowedHosts (hs : list string)
| CallWithCoreOptions (o : cors.Options)
| CallWithZapLogger (l : zap.Logger).

Definition build (c : OptionCall) : Option World :=
  match c with
  | CallWithPort p => WithPort p
  | CallWithMiddlewares ms => WithMiddlewares ms
  | CallWithAllowedHosts hs => WithAllowedHosts hs
  | CallWithCoreOptions o => WithCoreOptions o
  | CallWithZapLogger l => WithZapLogger l
  end.

(** The same call, or two calls of [WithAllowedHosts]. *)
Inductive sameButHosts : OptionCall -> OptionCall -> Prop :=
| same_call c : sameButHosts c c
| other_hosts hs hs' : sameButHosts (CallWithAllowedHosts hs) (CallWithAllowedHosts hs').

(** The configuration [RunHttpServer] starts from. *)
Definition initial : config World :=
  {| port := DefaultPort; middlewares := []; allowedHosts := [];
     setCors := false; corsOptions := cors.zero; logger := nopLogger |}.

(** A configuration without its allowed hosts. *)
Definition visible (c : config World)
  : string * list (Middleware World) * bool * cors.Options * LoggerRef :=
  (port c, middlewares c, setCors c, corsOptions c, logger c).

(** The mutations of all the options, one after the other. *)
Definition mutateAll (options : list (Option World)) (c : config World) : config World :=
  fold_left (fun c o => fst (o c)) options c.

End Words.

Arguments scripted {World} _.
Arguments logLine _ _ _ _ : assert.
Arguments CallWithPort {World} _.
Arguments CallWithMiddlewares {World} _.
Arguments CallWithAllowedHosts {World} _.
Arguments CallWithCoreOptions {World} _.
Arguments CallWithZapLogger {World} _.
Arguments same_call {World} _.
Arguments other_hosts {World} _ _.
Arguments build {World} _.
Arguments sameButHosts {World} _ _.
Arguments initial {World}.
Arguments visible {World} _.
Arguments mutateAll {World} _ _.

(** A library whose middlewares pass the request on, and a handler that
    answers 404, to run the bootstrap on. *)
Definition passOn : Middleware unit := fun next => next.

Definition idLibrary : Library unit :=
  {| Timeout := fun _ => passOn; RequestID := passOn; RealIP := passOn;
     Recoverer := passOn; SetHeader := fun _ _ => passOn; NoCache := passOn;
     cors_Handler := fun _ => passOn |}.

Definition notFound : Handler unit :=
  scripted (fun _ s => ([CWriteHeader StatusNotFound], s)).

(** The body of the specification's example: [{"a":1,"b":2}]. *)
Definition body_ab : string := ("{" ++ q "a" ++ ":1," ++ q "b" ++ ":2}")%string.

(** Two objects, one after the other: [{"a":1}{"a":2}]. *)
Definition body_twice : string :=
  ("{" ++ q "a" ++ ":1}" ++ "{" ++ q "a" ++ ":2}")%string.

(** An object whose [a] is a string, and then another object:
    [{"a":"x"}{"a":1}]. *)
Definition body_bad_then_more : string :=
  ("{" ++ q "a" ++ ":" ++ q "x" ++ "}" ++ "{" ++ q "a" ++ ":1}")%string.

(** A target with the one field [a]. *)
Definition target_a : flatjson.Struct := [("a", 0)].

(** A codec that never reports an unknown field while the decoder is not
    strict: the contract of [encoding/json]. *)
Definition lenient {T : Type} (codec : json.Codec T) : Prop :=
  forall d t e d' t',
    json.disallowUnknownFields d = false ->
    json.Decode codec d t = (Some e, d', t') ->
    HasPrefix (Error e) "json: unknown field " = false.

End rest_spec.

(* ================================================================= *)
(** ** Package misc *)

Module misc.

Section Slices.

(** The element type; [T_eq_dec] is [==] on a [comparable] type. *)
Variable T : Type.
Variable T_eq_dec : forall x y : T, {x = y} + {x <> y}.

(** [Filter]: the loop that appends to [out] the elements [fn] accepts. *)
Definition Filter (list : Datatypes.list T) (fn : T -> bool) : Datatypes.list T :=
  fold_left (fun out v => if fn v then out ++ [v] else out) list [].

(** [Extract]: the loop that appends [fn(v)] for every element. *)
Definition Extract {R : Type} (in_ : list T) (fn : T -> R) : list R :=
  fold_left (fun out v => out ++ [fn v]) in_ [].

(** The loop of [Index], from position [i] on. *)
Fixpoint Index_from (i : Z) (in_ : list T) (target : T) : Z :=
  match in_ with
  | [] => -1
  | v :: rest => if T_eq_dec v target then i else Index_from (i + 1) rest target
  end.

Definition Index (in_ : list T) (target : T) : Z := Index_from 0 in_ target.

Definition Contain (in_ : list T) (target : T) : bool :=
  negb (Index in_ target =? -1).

End Slices.

Arguments Filter {T} _ _.
Arguments Extract {T R} _ _.
Arguments Index_from {T} _ _ _ _.
Arguments Index {T} _ _ _.
Arguments Contain {T} _ _ _.

End misc.

(* ================================================================= *)
(** ** Package common: the earlier server bootstrap *)

Module gostrings.

(** [strings.Split(s, sep)] for a separator [sep] of one byte: the
    segments of [s] between the occurrences of the byte, one more than
    there are occurrences. *)
Fixpoint Split (s : string) (sep : ascii) : list string :=
  match s with
  | EmptyString => [EmptyString]
  | String c s' =>
      if Ascii.eqb c sep then EmptyString :: Split s' sep
      else match Split s' sep with
           | seg :: segs => String c seg :: segs
           | [] => [String c EmptyString]
           end
  end.

(** [strings.Join(segs, sep)] for the same separator. *)
Fixpoint Join (segs : list string) (sep : ascii) : string :=
  match segs with
  | [] => EmptyString
  | [seg] => seg
  | seg :: segs' => (seg ++ String sep (Join segs' sep))%string
  end.

End gostrings.

Module common.
Import strings errors http rest.

Definition gracefulShutdownSec : Z := 5.

(** The byte [;], the separator of [CORS_ALLOWED_ORIGINS]. *)
Definition semicolon : ascii := ascii_of_nat 59.

Section Server.
Variable World : Type.
Variable lib : Library World.

(** [os.Getenv]: the value of a variable, empty when it is not set. *)
Variable Getenv : string -> string.

(** [addCorsMiddleware(router)]. *)
Definition addCorsMiddleware (router : Mux World) : Mux World :=
  let allowedOrigins := gostrings.Split (Getenv "CORS_ALLOWED_ORIGINS") semicolon in
  if (List.length allowedOrigins =? 0)%nat then router
  else
    let corsMiddleware :=
      cors_Handler lib
        {| cors.AllowedOrigins := allowedOrigins;
           cors.AllowedMethods := ["GET"; "POST"; "PUT"; "PATCH"; "DELETE"; "OPTIONS"];
           cors.AllowedHeaders := ["Accept"; "Authorization"; "Content-Type"; "X-CSRF-Token"];
           cors.ExposedHeaders := ["Link"];
           cors.AllowCredentials := true;
           cors.MaxAge := 300 |} in
    Use [corsMiddleware] router.

(** [setDefaultMiddlewares(logger, r)]. *)
Definition setDefaultMiddlewares (logger : zap.Logger) (r : Mux World) : Mux World :=
  let r := Use [Timeout World lib 60] r in
  let r := Use [RequestLogger logger] r in
  let r := Use [RequestID World lib] r in
  let r := Use [RealIP World lib] r in
  let r := Use [Recoverer World lib] r in
  let r := addCorsMiddleware r in
  let r := Use [ SetHeader World lib "X-Content-Type-Options" "nosniff";
                 SetHeader World lib "X-Frame-Options" "deny" ] r in
  Use [NoCache World lib] r.

(** [RunHttpServer(ctx, logger, port, createHandler)], up to the
    construction of [http.Server]: the router and the server. *)
Definition RunHttpServer (logger : zap.Logger) (port : string)
    (createHandler : Mux World -> Handler World) : Mux World * Server World :=
  let apiRouter := NewRouter in
  let apiRouter := setDefaultMiddlewares logger apiRouter in
  (apiRouter,
   {| Addr := JoinHostPort_empty port; SHandler := createHandler apiRouter |}).

End Server.

Arguments addCorsMiddleware {World} _ _ _.
Arguments setDefaultMiddlewares {World} _ _ _ _.
Arguments RunHttpServer {World} _ _ _ _ _.

End common.

(* ================================================================= *)
(** ** More vocabulary for the server bootstrap and the logger *)

Module rest_words.
Import strings errors http rest rest_spec.

Section Words.
Variable World : Type.

(** The constructor a call is a call of. *)
Definition kindOf (c : OptionCall World) : nat :=
  match c with
  | CallWithPort _ => 0
  | CallWithMiddlewares _ => 1
  | CallWithAllowedHosts _ => 2
  | CallWithCoreOptions _ => 3
  | CallWithZapLogger _ => 4
  end.

Definition ofKind (k : nat) (c : OptionCall World) : bool := (kindOf c =? k)%nat.

(** None of the calls is a call of the constructor [k]. *)
Definition without (k : nat) (calls : list (OptionCall World)) : bool :=
  forallb (fun c => negb (ofKind k c)) calls.

(** What [RunHttpServer] reads of the configuration the options leave:
    the port, whether there is a custom middleware, whether a CORS policy
    was given, and the logger. *)
Definition reads (c : config World) : string * bool * bool * LoggerRef :=
  (port c, (List.length (middlewares c) =? 0)%nat, setCors c, logger c).

(** A relation between the states of two response writers that every
    call on them keeps. *)
Definition simulation {W1 W2 : Type} {RW1 : ResponseWriter W1}
    {RW2 : ResponseWriter W2} (R : W1 -> W2 -> Prop) : Prop :=
  forall c w1 w2, R w1 w2 -> R (call c w1) (call c w2).

(** A handler that uses its response writer through the calls of the
    interface only: on two writers that such a relation relates it leaves
    them related, and it leaves the same state. *)
Definition uniform (hd : Handler World) : Prop :=
  forall (W1 W2 : Type) (RW1 : ResponseWriter W1) (RW2 : ResponseWriter W2)
         (R : W1 -> W2 -> Prop),
    simulation R ->
    forall w1 w2 r s,
      R w1 w2 ->
      R (fst (hd W1 RW1 w1 r s)) (fst (hd W2 RW2 w2 r s))
      /\ snd (hd W1 RW1 w1 r s) = snd (hd W2 RW2 w2 r s).

(** Request loggers around a handler, the first one outermost. *)
Definition loggedBy (loggers : list zap.Logger) (next : Handler World)
  : Handler World :=
  fold_right (fun l h => RequestLogger l h) next loggers.

(** Two wrappers that have seen the same and stand in front of related
    writers. *)
Definition wrapped {W1 W2 : Type} (R : W1 -> W2 -> Prop)
    (b1 : middleware.basicWriter W1) (b2 : middleware.basicWriter W2) : Prop :=
  R (middleware.inner b1) (middleware.inner b2)
  /\ middleware.bw_wroteHeader b1 = middleware.bw_wroteHeader b2
  /\ middleware.code b1 = middleware.code b2.

End Words.

Arguments kindOf {World} _.
Arguments ofKind {World} _ _.
Arguments without {World} _ _.
Arguments reads {World} _.
Arguments uniform {World} _.
Arguments loggedBy {World} _ _.

End rest_words.

(* ================================================================= *)
(** ** Properties of the health probes *)

Module probe_facts.
Import strings errors http probe probe_spec.

Section Facts.
Variable World : Type.
Implicit Types (probes ps : list (Probe World)) (s : World) (t : Type_).

Lemma checkProbes_skips_other_kinds probes t s :
  checkProbes probes t s = firstFailure (ofKind t probes) s.
Proof.
  revert s; induction probes as [|c probes IH]; intro s; simpl.
  - reflexivity.
  - destruct (probe c =? t); simpl.
    + destruct (handler c s) as [[e|] s1]; [reflexivity | apply IH].
    + apply IH.
Qed.

Lemma firstFailure_none ps s s' :
  firstFailure ps s = (None, s') <-> allPass ps s = Some s'.
Proof.
  revert s; induction ps as [|c ps IH]; intro s; simpl.
  - split; intro H; inversion H; reflexivity.
  - destruct (handler c s) as [[e|] s1].
    + split; intro H; discriminate H.
    + apply IH.
Qed.

Lemma firstFailure_some ps s e s' :
  firstFailure ps s = (Some e, s') <->
  exists pre c post s1,
    ps = pre ++ c :: post /\ allPass pre s = Some s1 /\ handler c s1 = (Some e, s').
Proof.
  revert s; induction ps as [|c ps IH]; intro s; simpl.
  - split; [discriminate|].
    intros (pre & c & post & s1 & Hps & _).
    destruct pre; discriminate Hps.
  - destruct (handler c s) as [[e0|] s1] eqn:Hc.
    + split.
      * intro H; inversion H; subst.
        exists [], c, ps, s; simpl; auto.
      * intros (pre & c' & post & s2 & Hps & Hpre & Hc').
        destruct pre as [|p pre]; simpl in *.
        -- inversion Hps; subst. inversion Hpre; subst. congruence.
        -- inversion Hps; subst. rewrite Hc in Hpre. discriminate Hpre.
    + rewrite IH. split.
      * intros (pre & c' & post & s2 & Hps & Hpre & Hc').
        exists (c :: pre), c', post, s2; simpl.
        rewrite Hc, Hps; auto.
      * intros (pre & c' & post & s2 & Hps & Hpre & Hc').
        destruct pre as [|p pre]; simpl in *.
        -- inversion Hps; subst. inversion Hpre; subst. congruence.
        -- inversion Hps; subst. rewrite Hc in Hpre.
           exists pre, c', post, s2; auto.
Qed.

Lemma serve_ready probes s :
  serve probes "/ready" s
  = Some (readyHandler probes _ _ NewRecorder (get "/ready") s).
Proof. reflexivity. Qed.

Lemma serve_alive probes s :
  serve probes "/alive" s
  = Some (aliveHandler probes _ _ NewRecorder (get "/alive") s).
Proof. reflexivity. Qed.

Lemma serve_failure probes t s e s' :
  t = Readiness \/ t = Aliveness ->
  checkProbes probes t s = (Some e, s') ->
  serve probes (pathOf t) s
  = Some (response 500 (failureBody e ++ successBody t), s').
Proof.
  intros [-> | ->] H; simpl pathOf.
  - rewrite serve_ready. unfold readyHandler. rewrite H. reflexivity.
  - rewrite serve_alive. unfold aliveHandler. rewrite H. reflexivity.
Qed.

Lemma serve_success probes t s s' :
  t = Readiness \/ t = Aliveness ->
  checkProbes probes t s = (None, s') ->
  serve probes (pathOf t) s = Some (response 200 (successBody t), s').
Proof.
  intros [-> | ->] H; simpl pathOf.
  - rewrite serve_ready. unfold readyHandler. rewrite H. reflexivity.
  - rewrite serve_alive. unfold aliveHandler. rewrite H. reflexivity.
Qed.

End Facts.

Lemma append_length (a b : string) :
  String.length (a ++ b) = (String.length a + String.length b)%nat.
Proof. induction a as [|c a IH]; simpl; [reflexivity | now rewrite IH]. Qed.

Lemma append_longer (a b : string) : b <> EmptyString -> (a ++ b)%string <> a.
Proof.
  intros Hb Heq. apply (f_equal String.length) in Heq.
  rewrite append_length in Heq.
  destruct b; [now apply Hb | simpl in Heq; lia].
Qed.

Lemma successBody_not_empty t : successBody t <> EmptyString.
Proof. unfold successBody. destruct (t =? Readiness); discriminate. Qed.

(** C2.  When a probe of the kind fails with [e], the endpoint answers
    with status 500, and its body is the failure object followed by the
    success object of the endpoint: the handler does not return after it
    has written the failure, so the body is not the failure object alone. *)
Theorem failing_probe_body_has_success_appended
    (World : Type) (probes : list (Probe World)) (t : Type_)
    (s s' : World) (e : error) :
  t = Readiness \/ t = Aliveness ->
  checkProbes probes t s = (Some e, s') ->
  serve probes (pathOf t) s
  = Some (response 500 (failureBody e ++ successBody t), s')
  /\ (failureBody e ++ successBody t)%string <> failureBody e.
Proof.
  intros Ht H. split.
  - now apply serve_failure.
  - apply append_longer, successBody_not_empty.
Qed.

Lemma failing_probe_body_has_success_appended_witness :
  (Readiness = Readiness \/ Readiness = Aliveness)
  /\ checkProbes [WithProbe Readiness (failing (errorString "not ready"))]
       Readiness tt = (Some (errorString "not ready"), tt)
  /\ serve [WithProbe Readiness (failing (errorString "not ready"))] "/ready" tt
     = Some (response 500
               ("{" ++ q "status" ++ ": " ++ q "not ready" ++ "}"
                ++ "{" ++ q "status" ++ ": " ++ q "ready" ++ "}"), tt).
Proof.
  split; [left; reflexivity|]. split; [reflexivity|].
  exact (proj1 (failing_probe_body_has_success_appended unit
                  [WithProbe Readiness (failing (errorString "not ready"))]
                  Readiness tt tt (errorString "not ready")
                  (or_introl eq_refl) eq_refl)).
Defined.

(** C6.  The check of kind [t] is the run of the probes of that kind, in
    registration order, up to the first failure, whose error it returns;
    it passes exactly when all of them pass.  An endpoint without a probe
    of its kind answers 200.  With one failing readiness probe and one
    passing aliveness probe, [/ready] answers 500 and [/alive] 200. *)
Theorem health_check_contract
    (World : Type) (probes : list (Probe World)) (t : Type_) (s : World) :
  checkProbes probes t s = firstFailure (ofKind t probes) s
  /\ (forall e s',
        checkProbes probes t s = (Some e, s') <->
        exists pre c post s1,
          ofKind t probes = pre ++ c :: post
          /\ allPass pre s = Some s1
          /\ handler c s1 = (Some e, s'))
  /\ (forall s',
        checkProbes probes t s = (None, s') <-> allPass (ofKind t probes) s = Some s')
  /\ (t = Readiness \/ t = Aliveness ->
      ofKind t probes = [] ->
      serve probes (pathOf t) s = Some (response 200 (successBody t), s))
  /\ (forall e,
        let ps := [WithProbe Readiness (failing e); WithProbe Aliveness passing] in
        option_map (fun x => Code (fst x)) (serve ps "/ready" s) = Some 500
        /\ option_map (fun x => Code (fst x)) (serve ps "/alive" s) = Some 200).
Proof.
  repeat split.
  - apply checkProbes_skips_other_kinds.
  - rewrite checkProbes_skips_other_kinds. apply firstFailure_some.
  - rewrite checkProbes_skips_other_kinds. apply firstFailure_some.
  - rewrite checkProbes_skips_other_kinds. apply firstFailure_none.
  - rewrite checkProbes_skips_other_kinds. apply firstFailure_none.
  - intros Ht Hnone. apply serve_success; [exact Ht|].
    rewrite checkProbes_skips_other_kinds, Hnone. reflexivity.
Qed.

Lemma health_check_contract_witness :
  ofKind Readiness [WithProbe Aliveness (journaled "db" None)] = []
  /\ serve [WithProbe Aliveness (journaled "db" None)] "/ready" []
     = Some (response 200 readyBody, [])
  /\ checkProbes
       [ WithProbe Readiness (journaled "cache" None);
         WithProbe Aliveness (journaled "db" None);
         WithProbe Readiness (journaled "queue" (Some (errorString "down")));
         WithProbe Readiness (journaled "disk" None) ]
       Readiness []
     = (Some (errorString "down"), ["cache"; "queue"]).
Proof.
  split; [reflexivity|]. split.
  - exact (proj1 (proj2 (proj2 (proj2
             (health_check_contract (list string)
                [WithProbe Aliveness (journaled "db" None)] Readiness []))))
             (or_introl eq_refl) eq_refl).
  - reflexivity.
Defined.

End probe_facts.

(* ================================================================= *)
(** ** Properties of the JSON helpers *)

Module json_facts.
Import strings errors http rest rest_spec.

(** *** WriteError *)

Lemma errCodeFromHttp_default code :
  mapped code = false -> errCodeFromHttp code = "ErrInternalServer".
Proof.
  unfold mapped, errCodeFromHttp, codeMap, map_lookup.
  unfold StatusBadRequest, StatusInternalServerError, StatusUnauthorized,
    StatusConflict, StatusForbidden.
  intro H.
  repeat (apply orb_false_elim in H; destruct H as [H ?]).
  now rewrite H, H0, H1, H2, H3.
Qed.

Lemma WriteError_response (quote : string -> string) code msg :
  WriteError quote NewRecorder code msg
  = jsonResponse code (envelope (quote (errCodeFromHttp code)) (quote msg)).
Proof. reflexivity. Qed.



(** *** ReadJSON *)

Section Reader.
Context {T : Type}.
Variable codec : json.Codec T.
Variable Quote : string -> string.

(** Whatever the decoder reports, the answer is 400 with an error. *)
Lemma decodeError_bad_request err :
  exists msg, decodeError Quote err = (400, Some (errorString msg)).
Proof.
  unfold decodeError.
  destruct (As_SyntaxError err); [eexists; reflexivity|].
  destruct (Is_ErrUnexpectedEOF err); [eexists; reflexivity|].
  destruct (As_UnmarshalTypeError err) as [[f off]|]; [eexists; reflexivity|].
  destruct (HasPrefix _ _); [eexists; reflexivity|].
  destruct (Is_EOF err); [eexists; reflexivity|].
  destruct (String.eqb _ _); eexists; reflexivity.
Qed.

(** The rows of the table, on the errors [encoding/json], [io] and
    [net/http] produce themselves. *)
Lemma decodeError_syntax msg off :
  decodeError Quote (SyntaxError msg off)
  = (400, Some (errorString
       ("request body contains badly-formed JSON (at position " ++ Itoa off ++ ")"))).
Proof. reflexivity. Qed.

Lemma decodeError_truncated :
  decodeError Quote ErrUnexpectedEOF
  = (400, Some (errorString "request body contains badly-formed JSON")).
Proof. reflexivity. Qed.

Lemma decodeError_type v ty off st f :
  decodeError Quote (UnmarshalTypeError v ty off st f)
  = (400, Some (errorString
       ("request body contains an invalid value for the " ++ Quote f
          ++ " field (at position " ++ Itoa off ++ ")"))).
Proof. reflexivity. Qed.

Lemma decodeError_unknown_field name :
  decodeError Quote (errorString ("json: unknown field " ++ name))
  = (400, Some (errorString ("request body contains unknown field " ++ name))).
Proof.
  unfold decodeError; simpl.
  unfold HasPrefix, TrimPrefix; simpl.
  replace (String.length name - 0)%nat with (String.length name) by lia.
  assert (Hs : forall s, substring 0 (String.length s) s = s).
  { induction s as [|c s IH]; simpl; [reflexivity | now rewrite IH]. }
  assert (Hp : forall s, String.prefix EmptyString s = true) by (destruct s; reflexivity).
  now rewrite Hp, Hs.
Qed.

Lemma decodeError_empty :
  decodeError Quote EOF = (400, Some (errorString "request body must not be empty")).
Proof. reflexivity. Qed.

Lemma decodeError_too_large :
  decodeError Quote (errorString "http: request body too large")
  = (400, Some (errorString "http: request body too large")).
Proof. reflexivity. Qed.

Lemma decodeError_other err :
  As_SyntaxError err = None ->
  Is_ErrUnexpectedEOF err = false ->
  As_UnmarshalTypeError err = None ->
  HasPrefix (Error err) "json: unknown field " = false ->
  Is_EOF err = false ->
  Error err <> "http: request body too large" ->
  decodeError Quote err = (400, Some (errorString "Internal Server Error")).
Proof.
  intros H1 H2 H3 H4 H5 H6. unfold decodeError.
  rewrite H1, H2, H3, H4, H5.
  apply String.eqb_neq in H6. now rewrite H6.
Qed.

(** Success is the one case left: the first [Decode] returns [nil] and
    the second one [io.EOF]. *)
Lemma ReadJSON_ok r target :
  fst (ReadJSON codec Quote r target) = (200, None) <->
  exists d1 t1 d2,
    json.Decode codec (json.NewDecoder (Body r)) target = (None, d1, t1)
    /\ json.DecodeEmpty codec d1 = (Some EOF, d2).
Proof.
  unfold ReadJSON.
  destruct (json.Decode codec _ target) as [[[e|] d1] t1].
  - split.
    + simpl. destruct (decodeError_bad_request e) as [msg ->]. discriminate.
    + intros (? & ? & ? & H & _). discriminate H.
  - destruct (json.DecodeEmpty codec d1) as [e2 d2] eqn:H2.
    split.
    + destruct e2 as [[]|]; simpl; try discriminate.
      intros _. exists d1, t1, d2. auto.
    + intros (d1' & t1' & d2' & H & H'). inversion H; subst.
      rewrite H2 in H'. inversion H'; subst. reflexivity.
Qed.

(** While the decoder is not strict, no body is answered with the
    unknown-field message. *)
Lemma ReadJSON_never_reports_unknown_field r target :
  lenient codec ->
  forall msg,
    snd (fst (ReadJSON codec Quote r target)) = Some (errorString msg) ->
    HasPrefix msg "request body contains unknown field " = false.
Proof.
  intros Hl msg. unfold ReadJSON.
  destruct (json.Decode codec _ target) as [[[e|] d1] t1] eqn:Hd.
  - apply Hl in Hd; [|reflexivity]. simpl. unfold decodeError.
    destruct (As_SyntaxError e); [intro H; inversion H; reflexivity|].
    destruct (Is_ErrUnexpectedEOF e); [intro H; inversion H; reflexivity|].
    destruct (As_UnmarshalTypeError e) as [[f off]|];
      [intro H; inversion H; reflexivity|].
    rewrite Hd.
    destruct (Is_EOF e); [intro H; inversion H; reflexivity|].
    destruct (String.eqb _ _) eqn:He.
    + apply String.eqb_eq in He. rewrite He.
      intro H; inversion H; reflexivity.
    + intro H; inversion H; reflexivity.
  - destruct (json.DecodeEmpty codec d1) as [e2 d2].
    destruct (negb (is_EOF e2)); simpl.
    + intro H; inversion H; reflexivity.
    + discriminate.
Qed.

End Reader.

(** The reference decoder keeps that contract. *)
Lemma store_lenient len ms t saved :
  (forall e, saved = Some e -> HasPrefix (Error e) "json: unknown field " = false) ->
  forall e, fst (flatjson.store false len ms t saved) = Some e ->
  HasPrefix (Error e) "json: unknown field " = false.
Proof.
  revert t saved; induction ms as [|[[k v] rl] ms IH]; intros t saved Hs; simpl.
  - exact Hs.
  - destruct (flatjson.has_field k t); [|now apply IH].
    destruct v; [now apply IH|].
    apply IH. intros e. destruct saved as [e0|]; simpl.
    + apply Hs.
    + intro H; inversion H; subst e. simpl.
      destruct (String.eqb k EmptyString); reflexivity.
Qed.

Lemma flatjson_lenient : lenient flatjson.codec.
Proof.
  intros d t e d' t' Hflag. simpl. unfold flatjson.Decode, flatjson.decode.
  destruct (negb (flatjson.keys_ok t)).
  { intro H; inversion H; reflexivity. }
  destruct (flatjson.skip_ws (json.buf d)) as [|c s].
  { intro H; inversion H; reflexivity. }
  destruct (flatjson.parse_object (String c s)) as [[ms rest]|].
  - rewrite Hflag.
    pose proof (store_lenient (String.length (json.buf d)) ms t None) as Hs.
    destruct (flatjson.store false _ ms t None) as [err t1]. simpl in Hs.
    intro H; inversion H; subst. apply Hs; [discriminate | reflexivity].
  - intro H; inversion H; reflexivity.
Qed.

(** C3.  The body [{"a":1,"b":2}], decoded into a target whose only field
    is [a], is answered with 200 and no error: [ReadJSON] builds its
    decoder with [NewDecoder] and never makes it strict, so the field [b]
    is skipped.  On a strict decoder the same body is the unknown-field
    error, which the switch of [ReadJSON] would answer with 400 and the
    name of the field. *)
Theorem ReadJSON_accepts_unknown_field (Quote : string -> string) :
  ReadJSON flatjson.codec Quote (post body_ab) target_a = ((200, None), [("a", 1)])
  /\ flatjson.in_fragment 2 body_ab = true
  /\ fst (fst (flatjson.Decode (json.DisallowUnknownFields (json.NewDecoder body_ab))
                 target_a))
     = Some (errorString ("json: unknown field " ++ q "b"))
  /\ decodeError Quote (errorString ("json: unknown field " ++ q "b"))
     = (400, Some (errorString ("request body contains unknown field " ++ q "b"))).
Proof.
  split; [reflexivity|]. split; [reflexivity|]. split; [reflexivity|].
  apply decodeError_unknown_field.
Qed.




(** On the reference decoder, unread input that is not white space is
    never the end of the input for the second [Decode]. *)
Lemma store_not_EOF strict len ms t saved :
  saved <> Some EOF -> fst (flatjson.store strict len ms t saved) <> Some EOF.
Proof.
  revert t saved; induction ms as [|[[k v] rl] ms IH]; intros t saved Hs; simpl.
  - exact Hs.
  - destruct (flatjson.has_field k t).
    + destruct v; [now apply IH|].
      apply IH. destruct saved; [exact Hs | discriminate].
    + destruct strict; [|now apply IH].
      apply IH. destruct saved; [exact Hs | discriminate].
Qed.

Lemma trailing_content_is_not_EOF d :
  flatjson.skip_ws (json.buf d) <> EmptyString ->
  fst (flatjson.DecodeEmpty d) <> Some EOF.
Proof.
  intro Hrest. unfold flatjson.DecodeEmpty, flatjson.Decode, flatjson.decode.
  simpl flatjson.keys_ok. cbv iota beta. simpl negb. cbv iota.
  destruct (flatjson.skip_ws (json.buf d)) as [|c s]; [now elim Hrest|].
  destruct (flatjson.parse_object (String c s)) as [[ms rest]|].
  - pose proof (store_not_EOF (json.disallowUnknownFields d)
                  (String.length (json.buf d)) ms [] None) as Hs.
    destruct (flatjson.store _ _ ms [] None) as [err t1]. simpl in *.
    apply Hs. discriminate.
  - simpl. discriminate.
Qed.

End json_facts.

(* ================================================================= *)
(** ** Properties of the request logger *)

Module logger_facts.
Import strings errors http middleware rest rest_spec.

Lemma tracks_pending h :
  tracks (middleware.NewWrapResponseWriter (pending h) 1) (pending h).
Proof. unfold tracks; simpl. repeat split; discriminate. Qed.

Lemma tracks_any_proto h p :
  middleware.NewWrapResponseWriter (pending h) p
  = middleware.NewWrapResponseWriter (pending h) 1.
Proof. reflexivity. Qed.

(** Each call on the wrapper is the same call on the recorder behind it. *)
Lemma call_tracks c b rw : tracks b rw -> tracks (call c b) (call c rw).
Proof.
  destruct b as [w bh bc bn], rw as [rc rh rb rwh].
  unfold tracks; simpl. intros (-> & -> & Hw & Hn).
  destruct c as [k v | buf | code]; simpl;
    unfold bw_Write, bw_WriteHeader, rec_Write, rec_WriteHeader; simpl;
    destruct rwh; simpl; intuition (try discriminate; auto).
Qed.

Lemma replay_tracks cs : forall b rw, tracks b rw -> tracks (replay cs b) (replay cs rw).
Proof.
  induction cs as [|c cs IH]; intros b rw H; simpl.
  - exact H.
  - apply IH, call_tracks, H.
Qed.

Lemma tracks_status b rw : tracks b rw -> middleware.Status b = seen rw.
Proof.
  intros (_ & _ & Hw & Hn). unfold middleware.Status, seen.
  destruct (wroteHeader rw); [now apply Hw | now apply Hn].
Qed.

Lemma seen_level rw :
  (wroteHeader rw = false -> Code rw = 200) ->
  (seen rw >=? 500) = (Code rw >=? 500).
Proof.
  unfold seen. destruct (wroteHeader rw); [reflexivity|].
  intro H. rewrite H; reflexivity.
Qed.


(** A handler that sets a header, answers 503 and writes a body, behind
    the logger: the response is the handler's, and the line is at error
    level with the code 503. *)
Example RequestLogger_on_503 :
  RequestLogger 7%nat
    (scripted (fun _ s => ([CHeaderSet "Retry-After" "1";
                            CWriteHeader 503; CWrite "busy"], s)))
    _ _ NewRecorder
    {| Method := "GET"; URL_Path := "/jobs"; URL_RawQuery := "page=2";
       ProtoMajor := 1; Body := EmptyString |}
    {| now := 100; logs := []; app := tt |}
  = ({| Code := 503; HeaderMap := [("Retry-After", "1")];
        RBody := "busy"; wroteHeader := true |},
     {| now := 100;
        logs := [ {| zap.logger := 7%nat; zap.level := zap.ErrorLevel;
                     zap.message := "request handled: GET /jobs";
                     zap.fields := [ zap.Int "code" 503;
                                     zap.Str "query" "page=2";
                                     zap.Duration "latency" 0 ] |} ];
        app := tt |}).
Proof. reflexivity. Qed.

End logger_facts.

(* ================================================================= *)
(** ** Properties of the server bootstrap *)

Module server_facts.
Import strings errors http rest rest_spec.

Section Facts.
Variable World : Type.
Variable lib : Library World.
Variable createHandler : Mux World -> Handler World.
Implicit Types (c : config World) (calls : list (OptionCall World)).

Lemma build_returns_nil (o : OptionCall World) c : snd (build o c) = None.
Proof. destruct o; reflexivity. Qed.

Lemma applyOptions_build calls c :
  applyOptions (map build calls) c = inl (mutateAll (map build calls) c).
Proof.
  revert c; induction calls as [|o calls IH]; intro c; simpl.
  - reflexivity.
  - pose proof (build_returns_nil o c) as Hnil.
    destruct (build o c) as [c' e]. simpl in Hnil. subst e. apply IH.
Qed.

(** Unfolds [RunHttpServer] on options that were built by the
    constructors, up to the configuration they leave. *)
Ltac run_options :=
  unfold RunHttpServer;
  repeat match goal with
    | |- context [applyOptions _ ?c] =>
        progress change c with (@initial World)
    end;
  rewrite !applyOptions_build.

(** With such options the server is built. *)
Lemma RunHttpServer_build calls :
  exists st, RunHttpServer lib createHandler (map build calls) = Serve st.
Proof.
  run_options.
  destruct (logger (mutateAll (map build calls) initial)); eexists; reflexivity.
Qed.

Lemma build_visible (o o' : OptionCall World) c c' :
  sameButHosts o o' -> visible c = visible c' ->
  visible (fst (build o c)) = visible (fst (build o' c')).
Proof.
  unfold visible. intros Hs Hv. inversion Hv as [[Hp Hm Hc Ho Hl]].
  destruct Hs as [o | hs hs'].
  - destruct o; simpl; congruence.
  - simpl; congruence.
Qed.

Lemma mutateAll_visible calls calls' :
  Forall2 sameButHosts calls calls' ->
  forall c c', visible c = visible c' ->
  visible (mutateAll (map build calls) c) = visible (mutateAll (map build calls') c').
Proof.
  induction 1 as [|o o' calls calls' Ho _ IH]; intros c c' Hv; simpl.
  - exact Hv.
  - apply IH, build_visible; assumption.
Qed.

(** The part of [RunHttpServer] after the options reads the port, the
    length of the middleware list, the CORS flag and the logger. *)
Lemma RunHttpServer_reads_visible calls calls' :
  visible (mutateAll (map build calls) initial)
  = visible (mutateAll (map build calls') initial) ->
  RunHttpServer lib createHandler (map build calls)
  = RunHttpServer lib createHandler (map build calls').
Proof.
  run_options.
  unfold visible. intro Hv. inversion Hv as [[Hp Hm Hc Ho Hl]].
  rewrite Hp, Hm, Hc, Hl. reflexivity.
Qed.

Lemma stack_members calls st mw :
  RunHttpServer lib createHandler (map build calls) = Serve st ->
  In mw (stack (apiRouter st)) ->
  In mw (DefaultMiddlewares lib)
  \/ mw = cors_Handler lib DefaultCorsOption
  \/ exists l, mw = RequestLogger l.
Proof.
  run_options.
  set (cfg := mutateAll (map build calls) initial).
  destruct (logger cfg) as [|l]; intro H; inversion H; subst st; clear H;
    cbn [apiRouter stack Use NewRouter];
    destruct (List.length (middlewares cfg) =? 0)%nat;
    destruct (setCors cfg); cbn [negb stack Use NewRouter app];
    rewrite ?app_nil_r; intro Hin;
    repeat (apply in_app_or in Hin; destruct Hin as [Hin|Hin]);
    try (now left);
    try (destruct Hin as [<-|[]]; eauto);
    try contradiction.
Qed.

End Facts.

(** C9.  An option built by one of the five constructors returns [nil] on
    every configuration; so the loop of [RunHttpServer] over such options
    never reaches its fatal branch, applies the mutation of every option
    of the sequence, and the server is built. *)
Theorem options_never_fail
    (World : Type) (lib : Library World)
    (createHandler : Mux World -> Handler World)
    (calls : list (OptionCall World)) :
  (forall (o : OptionCall World) (c : config World), snd (build o c) = None)
  /\ (forall c, applyOptions (map build calls) c
                = inl (mutateAll (map build calls) c))
  /\ (exists st, RunHttpServer lib createHandler (map build calls) = Serve st)
  /\ (forall err, RunHttpServer lib createHandler (map build calls) <> Fatal err).
Proof.
  split; [exact (@build_returns_nil World)|].
  split; [exact (applyOptions_build World calls)|].
  split; [apply RunHttpServer_build|].
  intros err H.
  destruct (RunHttpServer_build World lib createHandler calls) as [st Hst].
  rewrite Hst in H. discriminate H.
Qed.

(** C10.  Two sequences of options that differ only in the argument of
    [WithAllowedHosts] start the same server: the same output, router,
    middleware stack, address and handler.  The hosts are stored in the
    configuration, and nothing reads them. *)
Theorem allowed_hosts_have_no_effect
    (World : Type) (lib : Library World)
    (createHandler : Mux World -> Handler World)
    (calls calls' : list (OptionCall World)) :
  Forall2 sameButHosts calls calls' ->
  RunHttpServer lib createHandler (map build calls)
  = RunHttpServer lib createHandler (map build calls')
  /\ (forall hs (c : config World),
        allowedHosts (fst (WithAllowedHosts hs c)) = hs).
Proof.
  intro H. split; [|reflexivity].
  apply RunHttpServer_reads_visible, mutateAll_visible; [exact H | reflexivity].
Qed.

Lemma allowed_hosts_have_no_effect_witness :
  RunHttpServer idLibrary (fun _ => notFound)
    (map build [CallWithAllowedHosts ["api.example.org"]; CallWithPort "9090"])
  = RunHttpServer idLibrary (fun _ => notFound)
      (map build [CallWithAllowedHosts []; CallWithPort "9090"]).
Proof.
  exact (proj1 (allowed_hosts_have_no_effect unit idLibrary (fun _ => notFound)
                  [CallWithAllowedHosts ["api.example.org"]; CallWithPort "9090"]
                  [CallWithAllowedHosts []; CallWithPort "9090"]
                  (Forall2_cons _ _ (other_hosts _ _)
                     (Forall2_cons _ _ (same_call _) (Forall2_nil _))))).
Defined.

(** C1.  With a non-empty list of custom middlewares and nothing else, the
    router gets the CORS handler alone: the defaults are left out, and the
    custom middlewares are not attached either.  Whatever the options, a
    middleware on the stack is one of the defaults, the CORS handler or the
    request logger: [RunHttpServer] reads no more of the custom list than
    its length. *)
Theorem custom_middlewares_are_dropped
    (World : Type) (lib : Library World)
    (createHandler : Mux World -> Handler World)
    (m : Middleware World) (ms : list (Middleware World)) :
  RunHttpServer lib createHandler [WithMiddlewares (m :: ms)]
  = Serve
      {| stdlog := ["WARN: no logger is set"];
         apiRouter := {| stack := [cors_Handler lib DefaultCorsOption] |};
         srv := {| Addr := ":8080";
                   SHandler := createHandler
                     {| stack := [cors_Handler lib DefaultCorsOption] |} |} |}
  /\ (forall calls st mw,
        RunHttpServer lib createHandler (map build calls) = Serve st ->
        In mw (stack (apiRouter st)) ->
        In mw (DefaultMiddlewares lib)
        \/ mw = cors_Handler lib DefaultCorsOption
        \/ exists l, mw = RequestLogger l).
Proof.
  split; [reflexivity|].
  intros calls st mw. apply stack_members.
Qed.

End server_facts.

(* ================================================================= *)
(** ** Properties of the slice helpers *)

Module misc_facts.
Import misc.

Section Facts.
Variable T : Type.
Variable T_eq_dec : forall x y : T, {x = y} + {x <> y}.
Implicit Types (l : list T) (fn : T -> bool) (x : T).

Lemma Filter_loop fn l out :
  fold_left (fun out v => if fn v then out ++ [v] else out) l out
  = out ++ filter fn l.
Proof.
  revert out; induction l as [|v l IH]; intro out; simpl.
  - now rewrite app_nil_r.
  - rewrite IH. destruct (fn v); [|reflexivity].
    now rewrite <- app_assoc.
Qed.

Lemma Filter_filter l fn : Filter l fn = filter fn l.
Proof. unfold Filter. now rewrite Filter_loop. Qed.

Lemma Extract_loop {R : Type} (f : T -> R) l out :
  fold_left (fun out v => out ++ [f v]) l out = out ++ map f l.
Proof.
  revert out; induction l as [|v l IH]; intro out; simpl.
  - now rewrite app_nil_r.
  - rewrite IH. now rewrite <- app_assoc.
Qed.

Lemma Extract_map {R : Type} (f : T -> R) l : Extract l f = map f l.
Proof. unfold Extract. now rewrite Extract_loop. Qed.

Lemma Index_from_miss i l x : ~ In x l -> Index_from T_eq_dec i l x = -1.
Proof.
  revert i; induction l as [|v l IH]; intros i Hn; simpl.
  - reflexivity.
  - destruct (T_eq_dec v x) as [->|Hne].
    + elim Hn. now left.
    + apply IH. intro H. apply Hn. now right.
Qed.

Lemma Index_from_hit i l x :
  In x l ->
  exists n : nat,
    Index_from T_eq_dec i l x = i + Z.of_nat n
    /\ nth_error l n = Some x
    /\ ~ In x (firstn n l).
Proof.
  revert i; induction l as [|v l IH]; intros i Hin; simpl.
  - destruct Hin.
  - destruct (T_eq_dec v x) as [->|Hne].
    + exists O. simpl. split; [lia|]. split; [reflexivity|]. intros [].
    + destruct Hin as [Heq|Hin]; [now elim Hne|].
      destruct (IH (i + 1) Hin) as (n & Hi & Hn & Hf).
      exists (S n). simpl. split; [lia|]. split; [exact Hn|].
      intros [Heq|H]; [now elim Hne | now apply Hf].
Qed.

Lemma Index_from_lower i l x :
  Index_from T_eq_dec i l x = -1 \/ i <= Index_from T_eq_dec i l x.
Proof.
  revert i; induction l as [|v l IH]; intro i; simpl.
  - now left.
  - destruct (T_eq_dec v x); [right; lia|].
    destruct (IH (i + 1)); [now left | right; lia].
Qed.

Lemma Index_miss_iff l x : Index T_eq_dec l x = -1 <-> ~ In x l.
Proof.
  split.
  - intros H Hin. destruct (Index_from_hit 0 l x Hin) as (n & Hi & _).
    unfold Index in H. lia.
  - apply Index_from_miss.
Qed.

Lemma Contain_In l x : Contain T_eq_dec l x = true <-> In x l.
Proof.
  unfold Contain. rewrite negb_true_iff, Z.eqb_neq, Index_miss_iff.
  split; [|tauto].
  intro H. destruct (in_dec T_eq_dec x l); [assumption | now elim H].
Qed.

End Facts.

Lemma Index_range (T : Type) (T_eq_dec : forall x y : T, {x = y} + {x <> y})
    (l : list T) (x : T) :
  -1 <= Index T_eq_dec l x < Z.of_nat (List.length l).
Proof.
  destruct (in_dec T_eq_dec x l) as [Hin|Hn].
  - destruct (Index_from_hit T T_eq_dec 0 l x Hin) as (n & Hi & Hn & _).
    assert (n < List.length l)%nat by (apply nth_error_Some; congruence).
    unfold Index. lia.
  - unfold Index. rewrite Index_from_miss by assumption.
    split; [lia|]. lia.
Qed.

(** X1.  [Filter] returns the elements of the list that the predicate
    accepts, each as often as it occurs and in the order of the list: it
    distributes over concatenation, an element is in the result exactly
    when it is in the list and accepted, and it occurs there as often as in
    the list. *)
Theorem Filter_keeps_accepted_in_order
    (T : Type) (T_eq_dec : forall x y : T, {x = y} + {x <> y})
    (l1 l2 : list T) (fn : T -> bool) (x : T) :
  Filter (l1 ++ l2) fn = Filter l1 fn ++ Filter l2 fn
  /\ (In x (Filter l1 fn) <-> In x l1 /\ fn x = true)
  /\ count_occ T_eq_dec (Filter l1 fn) x
     = (if fn x then count_occ T_eq_dec l1 x else O)
  /\ (List.length (Filter l1 fn) <= List.length l1)%nat.
Proof.
  rewrite !Filter_filter. split; [apply filter_app|].
  split; [apply filter_In|]. split.
  - induction l1 as [|v l IH]; simpl.
    + now destruct (fn x).
    + destruct (fn v) eqn:Hv; simpl.
      * destruct (T_eq_dec v x) as [->|Hne].
        -- rewrite IH, Hv. reflexivity.
        -- exact IH.
      * rewrite IH. destruct (T_eq_dec v x) as [->|Hne]; [|reflexivity].
        now rewrite Hv.
  - apply filter_length_le.
Qed.

(** X2.  Filtering twice is filtering once by both predicates; filtering
    again by the same predicate changes nothing, and neither does
    filtering a list whose elements are all accepted. *)
Theorem Filter_twice (T : Type) (l : list T) (f g : T -> bool) :
  Filter (Filter l f) g = Filter l (fun v => f v && g v)
  /\ Filter (Filter l f) f = Filter l f
  /\ ((forall x, In x l -> f x = true) -> Filter l f = l).
Proof.
  rewrite !Filter_filter.
  assert (H2 : forall h, filter h (filter f l) = filter (fun v => f v && h v) l).
  { intro h. induction l as [|v l IH]; simpl; [reflexivity|].
    destruct (f v) eqn:Hf; simpl; [|exact IH].
    destruct (h v); now rewrite IH. }
  split; [apply H2|]. split.
  - rewrite H2. apply filter_ext. intro v. now destruct (f v).
  - clear H2. induction l as [|v l IH]; simpl; intro Hall; [reflexivity|].
    rewrite (Hall v) by now left.
    f_equal. apply IH. intros x Hx. apply Hall. now right.
Qed.

(** X3.  [Extract] maps the list position by position: the result has the
    length of the input, its element at each position is the image of the
    input's element there, and extracting twice is extracting with the
    composed function. *)
Theorem Extract_positionwise
    (T R S : Type) (l l' : list T) (f : T -> R) (g : R -> S) (i : nat) :
  List.length (Extract l f) = List.length l
  /\ nth_error (Extract l f) i = option_map f (nth_error l i)
  /\ Extract (l ++ l') f = Extract l f ++ Extract l' f
  /\ Extract (Extract l f) g = Extract l (fun v => g (f v)).
Proof.
  rewrite !Extract_map. split; [apply length_map|].
  split; [apply nth_error_map|]. split; [apply map_app|]. apply map_map.
Qed.




(** The cases of the package's tests. *)
Example Filter_tests :
  Filter [1; 2; 3] (fun f => f <? 3) = [1; 2]
  /\ Filter ["foo"; "bar"; "bar"; "zar"]%string
       (fun f => negb (String.eqb f "bar")) = ["foo"; "zar"]%string
  /\ Filter [1; 2; 3; 4] (fun f => f mod 2 =? 0) = [2; 4].
Proof. repeat split. Qed.

Example Contain_tests :
  Contain string_dec ["foo"; "bar"; "zar"]%string "foo" = true
  /\ Contain string_dec ["foo"; "bar"; "zar"]%string "oof" = false
  /\ Contain Z.eq_dec [1; 2; 3; 4] 4 = true
  /\ Contain Z.eq_dec [1; 2; 3; 4] 5 = false.
Proof. repeat split. Qed.

End misc_facts.

(* ================================================================= *)
(** ** More properties of the health probes *)

Module probe_more.
Import strings errors http probe probe_spec probe_facts.

Section Facts.
Variable World : Type.
Implicit Types (probes ps qs : list (Probe World)) (s : World) (t : Type_).

Lemma firstFailure_app ps qs s :
  firstFailure (ps ++ qs) s
  = match firstFailure ps s with
    | (Some e, s') => (Some e, s')
    | (None, s') => firstFailure qs s'
    end.
Proof.
  revert s; induction ps as [|c ps IH]; intro s; simpl.
  - reflexivity.
  - destruct (handler c s) as [[e|] s1]; [reflexivity | apply IH].
Qed.

Lemma ofKind_app t ps qs : ofKind t (ps ++ qs) = ofKind t ps ++ ofKind t qs.
Proof. apply filter_app. Qed.

Lemma ofKind_idem t ps : ofKind t (ofKind t ps) = ofKind t ps.
Proof.
  unfold ofKind. induction ps as [|c ps IH]; simpl; [reflexivity|].
  destruct (probe c =? t) eqn:Hc; simpl; [|exact IH].
  now rewrite Hc, IH.
Qed.

(** An endpoint reads the probes through [checkProbes] only. *)
Lemma serve_by_check ps qs t s :
  t = Readiness \/ t = Aliveness ->
  checkProbes ps t s = checkProbes qs t s ->
  serve ps (pathOf t) s = serve qs (pathOf t) s.
Proof.
  intros [-> | ->] H; simpl pathOf.
  - rewrite !serve_ready. unfold readyHandler. now rewrite H.
  - rewrite !serve_alive. unfold aliveHandler. now rewrite H.
Qed.

Lemma HandleFunc_lookup pattern (h : HandlerFunc World) mux mux' path :
  HandleFunc World pattern h mux = Some mux' ->
  mux_lookup World mux' path
  = match mux_lookup World mux path with
    | Some h' => Some h'
    | None => if String.eqb pattern path then Some h else None
    end.
Proof.
  unfold HandleFunc. destruct (mux_lookup World mux pattern); [discriminate|].
  intro H; inversion H; subst mux'; clear H.
  induction mux as [|[p h'] mux IH]; simpl.
  - reflexivity.
  - destruct (String.eqb p path); [reflexivity | exact IH].
Qed.

End Facts.

(** X6.  The status of [/ready] and [/alive] is 200 or 500, and nothing
    else: it is 200 exactly when every probe of the endpoint's kind passes,
    run in registration order, and 500 exactly when the check returns an
    error. *)
Theorem endpoint_status_is_200_or_500
    (World : Type) (probes : list (Probe World)) (t : Type_) (s : World) :
  t = Readiness \/ t = Aliveness ->
  exists rw s',
    serve probes (pathOf t) s = Some (rw, s')
    /\ (Code rw = 200 \/ Code rw = 500)
    /\ (Code rw = 200 <-> allPass (ofKind t probes) s = Some s')
    /\ (Code rw = 500 <-> exists e, checkProbes probes t s = (Some e, s')).
Proof.
  intro Ht.
  destruct (checkProbes probes t s) as [[e|] s'] eqn:Hc.
  - exists (response 500 (failureBody e ++ successBody t)), s'.
    split; [now apply serve_failure|]. simpl.
    split; [now right|]. split.
    + split; [discriminate|]. intro Hall.
      rewrite checkProbes_skips_other_kinds in Hc.
      apply firstFailure_none in Hall. congruence.
    + split; [eauto | reflexivity].
  - exists (response 200 (successBody t)), s'.
    split; [now apply serve_success|]. simpl.
    split; [now left|]. split.
    + split; [|reflexivity]. intros _.
      rewrite checkProbes_skips_other_kinds in Hc.
      now apply firstFailure_none.
    + split; [discriminate|]. intros [e He]. discriminate He.
Qed.

Lemma endpoint_status_is_200_or_500_witness :
  exists rw s',
    serve [WithProbe Aliveness (journaled "db" (Some (errorString "down")))]
      "/alive" [] = Some (rw, s')
    /\ Code rw = 500.
Proof.
  destruct (endpoint_status_is_200_or_500 (list string)
              [WithProbe Aliveness (journaled "db" (Some (errorString "down")))]
              Aliveness [] (or_intror eq_refl))
    as (rw & s' & Hs & _ & _ & H500).
  exists rw, s'. split; [exact Hs|].
  apply H500. exists (errorString "down").
  simpl in Hs. inversion Hs. reflexivity.
Defined.

(** X7.  An endpoint answers and leaves the world as if only the probes
    of its kind were registered: the probes of the other kind are not run
    and have no effect on it. *)
Theorem other_kind_has_no_effect
    (World : Type) (probes : list (Probe World)) (t : Type_) (s : World) :
  t = Readiness \/ t = Aliveness ->
  serve probes (pathOf t) s = serve (ofKind t probes) (pathOf t) s.
Proof.
  intro Ht. apply serve_by_check; [exact Ht|].
  now rewrite !checkProbes_skips_other_kinds, ofKind_idem.
Qed.

Lemma other_kind_has_no_effect_witness :
  serve [ WithProbe Aliveness (journaled "db" (Some (errorString "down")));
          WithProbe Readiness (journaled "cache" None) ] "/ready" []
  = Some (response 200 readyBody, ["cache"]).
Proof.
  rewrite (other_kind_has_no_effect (list string) _ Readiness []
             (or_introl eq_refl)).
  reflexivity.
Defined.

(** X8.  Checking a list of probes followed by another is checking the
    first list and, when it passes, the second from the world the first
    left: a failure in the first list is returned and the second list is
    not run. *)
Theorem checkProbes_of_appended
    (World : Type) (ps qs : list (Probe World)) (t : Type_) (s : World) :
  checkProbes (ps ++ qs) t s
  = match checkProbes ps t s with
    | (Some e, s') => (Some e, s')
    | (None, s') => checkProbes qs t s'
    end.
Proof.
  rewrite !checkProbes_skips_other_kinds, ofKind_app, firstFailure_app.
  destruct (firstFailure (ofKind t ps) s) as [[e|] s']; [reflexivity|].
  now rewrite checkProbes_skips_other_kinds.
Qed.


End probe_more.

(* ================================================================= *)
(** ** More properties of the JSON helpers *)

Module json_more.
Import strings errors http rest rest_spec json_facts.



End json_more.

(* ================================================================= *)
(** ** More properties of the server bootstrap *)

Module server_more.
Import strings errors http rest rest_spec rest_words server_facts.

Section Facts.
Variable World : Type.
Variable lib : Library World.
Variable createHandler : Mux World -> Handler World.
Implicit Types (c : config World) (calls pre post : list (OptionCall World)).

(** Unfolds [RunHttpServer] on built options, up to the configuration
    they leave, named [cfg]. *)
Ltac run_built :=
  unfold RunHttpServer;
  repeat match goal with
    | |- context [applyOptions _ ?c] =>
        progress change c with (@initial World)
    end;
  rewrite !applyOptions_build.

Lemma mutateAll_app calls calls' c :
  mutateAll (map build (calls ++ calls')) c
  = mutateAll (map build calls') (mutateAll (map build calls) c).
Proof. unfold mutateAll. now rewrite map_app, fold_left_app. Qed.

Lemma RunHttpServer_by_config calls calls' :
  mutateAll (map build calls) initial = mutateAll (map build calls') initial ->
  RunHttpServer lib createHandler (map build calls)
  = RunHttpServer lib createHandler (map build calls').
Proof. run_built. now intros ->. Qed.

Lemma RunHttpServer_by_reads calls calls' :
  reads (mutateAll (map build calls) initial)
  = reads (mutateAll (map build calls') initial) ->
  RunHttpServer lib createHandler (map build calls)
  = RunHttpServer lib createHandler (map build calls').
Proof.
  run_built. unfold reads. intro H. inversion H as [[Hp Hm Hc Hl]].
  now rewrite Hp, Hm, Hc, Hl.
Qed.

Lemma build_reads (o : OptionCall World) c c' :
  reads c = reads c' -> reads (fst (build o c)) = reads (fst (build o c')).
Proof.
  unfold reads. intro H. inversion H as [[Hp Hm Hc Hl]].
  destruct o; simpl; congruence.
Qed.

Lemma mutateAll_reads calls : forall c c',
  reads c = reads c' ->
  reads (mutateAll (map build calls) c) = reads (mutateAll (map build calls) c').
Proof.
  induction calls as [|o calls IH]; intros c c' H; simpl.
  - exact H.
  - apply IH, build_reads, H.
Qed.

Lemma port_without calls : forall c,
  without 0 calls = true -> port (mutateAll (map build calls) c) = port c.
Proof.
  induction calls as [|o calls IH]; intros c H; simpl in *.
  - reflexivity.
  - apply andb_true_iff in H. destruct H as [Ho H].
    rewrite IH by exact H. destruct o; try reflexivity. discriminate Ho.
Qed.

Lemma logger_without calls : forall c,
  without 4 calls = true -> logger (mutateAll (map build calls) c) = logger c.
Proof.
  induction calls as [|o calls IH]; intros c H; simpl in *.
  - reflexivity.
  - apply andb_true_iff in H. destruct H as [Ho H].
    rewrite IH by exact H. destruct o; try reflexivity. discriminate Ho.
Qed.

Lemma setCors_stays calls : forall c,
  setCors c = true -> setCors (mutateAll (map build calls) c) = true.
Proof.
  induction calls as [|o calls IH]; intros c H; simpl.
  - exact H.
  - apply IH. destruct o; simpl; auto.
Qed.

Lemma Addr_is_port calls st :
  RunHttpServer lib createHandler (map build calls) = Serve st ->
  Addr (srv st) = (":" ++ port (mutateAll (map build calls) initial))%string.
Proof.
  run_built.
  destruct (logger (mutateAll (map build calls) initial));
    intro H; inversion H; reflexivity.
Qed.

Lemma swap_builds (a b : OptionCall World) c :
  kindOf a <> kindOf b ->
  fst (build b (fst (build a c))) = fst (build a (fst (build b c))).
Proof. destruct a, b; simpl; intro H; try reflexivity; now elim H. Qed.

Lemma later_build_counts (a b : OptionCall World) c :
  kindOf a = kindOf b ->
  fst (build b (fst (build a c))) = fst (build b c).
Proof. destruct a, b; simpl; intro H; try reflexivity; discriminate H. Qed.

Lemma stack_with_logger calls st l :
  RunHttpServer lib createHandler (map build calls) = Serve st ->
  logger (mutateAll (map build calls) initial) = userLogger l ->
  stdlog st = [] /\ exists front, stack (apiRouter st) = front ++ [RequestLogger l].
Proof.
  run_built. intros H Hl. rewrite Hl in H. inversion H; subst st; clear H.
  cbn [stdlog apiRouter]. split; [reflexivity|].
  unfold Use at 1. cbn [stack]. eexists. reflexivity.
Qed.

Lemma stack_without_logger calls st mw :
  RunHttpServer lib createHandler (map build calls) = Serve st ->
  logger (mutateAll (map build calls) initial) = nopLogger ->
  stdlog st = ["WARN: no logger is set"]
  /\ (In mw (stack (apiRouter st)) ->
      In mw (DefaultMiddlewares lib) \/ mw = cors_Handler lib DefaultCorsOption).
Proof.
  run_built. intros H Hl. rewrite Hl in H. inversion H; subst st; clear H.
  cbn [stdlog apiRouter]. split; [reflexivity|].
  destruct (List.length _ =? 0)%nat; destruct (setCors _);
    cbn [negb stack Use NewRouter app];
    rewrite ?app_nil_r; intro Hin;
    repeat (apply in_app_or in Hin; destruct Hin as [Hin|Hin]);
    try (now left); try (destruct Hin as [<-|[]]; now right);
    try contradiction.
Qed.

Lemma stack_with_cors_set calls st mw :
  RunHttpServer lib createHandler (map build calls) = Serve st ->
  setCors (mutateAll (map build calls) initial) = true ->
  In mw (stack (apiRouter st)) ->
  In mw (DefaultMiddlewares lib) \/ exists l, mw = RequestLogger l.
Proof.
  run_built. intros H Hc. rewrite Hc in H.
  destruct (logger _) as [|l]; inversion H; subst st; clear H;
    cbn [apiRouter];
    destruct (List.length _ =? 0)%nat; cbn [negb stack Use NewRouter app];
    rewrite ?app_nil_r; intro Hin;
    repeat (apply in_app_or in Hin; destruct Hin as [Hin|Hin]);
    try (now left); try (destruct Hin as [<-|[]]; eauto);
    try contradiction.
Qed.

End Facts.

(** X12.  The server listens on the port of the last [WithPort] among the
    options, and on 8080 when there is none. *)
Theorem last_port_wins
    (World : Type) (lib : Library World)
    (createHandler : Mux World -> Handler World)
    (pre post calls : list (OptionCall World)) (p : string) :
  (without 0 post = true ->
   exists st,
     RunHttpServer lib createHandler (map build (pre ++ CallWithPort p :: post))
     = Serve st
     /\ Addr (srv st) = (":" ++ p)%string)
  /\ (without 0 calls = true ->
      exists st,
        RunHttpServer lib createHandler (map build calls) = Serve st
        /\ Addr (srv st) = ":8080").
Proof.
  split; intro H.
  - destruct (RunHttpServer_build World lib createHandler
                (pre ++ CallWithPort p :: post)) as [st Hst].
    exists st. split; [exact Hst|].
    rewrite (Addr_is_port World lib createHandler _ _ Hst).
    rewrite mutateAll_app. simpl. now rewrite port_without.
  - destruct (RunHttpServer_build World lib createHandler calls) as [st Hst].
    exists st. split; [exact Hst|].
    rewrite (Addr_is_port World lib createHandler _ _ Hst).
    now rewrite port_without.
Qed.

Lemma last_port_wins_witness :
  exists st,
    RunHttpServer idLibrary (fun _ => notFound)
      (map build [CallWithPort "9090"; CallWithPort "7070"; CallWithZapLogger 1%nat])
    = Serve st
    /\ Addr (srv st) = ":7070".
Proof.
  exact (proj1 (last_port_wins unit idLibrary (fun _ => notFound)
                  [CallWithPort "9090"] [CallWithZapLogger 1%nat] [] "7070")
           eq_refl).
Defined.

(** X13.  The policy given to [WithCoreOptions] is never read: two option
    sequences that differ in that policy start the same server.  Once the
    option is given no CORS handler is attached at all: every middleware on
    the stack is a default one or the request logger. *)
Theorem cors_policy_is_not_read
    (World : Type) (lib : Library World)
    (createHandler : Mux World -> Handler World)
    (pre post : list (OptionCall World)) (o o' : cors.Options) :
  RunHttpServer lib createHandler (map build (pre ++ CallWithCoreOptions o :: post))
  = RunHttpServer lib createHandler (map build (pre ++ CallWithCoreOptions o' :: post))
  /\ (forall st mw,
        RunHttpServer lib createHandler
          (map build (pre ++ CallWithCoreOptions o :: post)) = Serve st ->
        In mw (stack (apiRouter st)) ->
        In mw (DefaultMiddlewares lib) \/ exists l, mw = RequestLogger l).
Proof.
  split.
  - apply RunHttpServer_by_reads. rewrite !mutateAll_app. simpl.
    apply mutateAll_reads. reflexivity.
  - intros st mw Hst. apply (stack_with_cors_set World lib createHandler _ _ _ Hst).
    rewrite mutateAll_app. simpl. now apply setCors_stays.
Qed.

(** X14.  Two neighbouring options built by different constructors can
    change places: the server that is started is the same. *)
Theorem different_options_commute
    (World : Type) (lib : Library World)
    (createHandler : Mux World -> Handler World)
    (pre post : list (OptionCall World)) (a b : OptionCall World) :
  kindOf a <> kindOf b ->
  RunHttpServer lib createHandler (map build (pre ++ a :: b :: post))
  = RunHttpServer lib createHandler (map build (pre ++ b :: a :: post)).
Proof.
  intro H. apply RunHttpServer_by_config.
  rewrite !mutateAll_app. simpl. now rewrite swap_builds.
Qed.

Lemma different_options_commute_witness :
  RunHttpServer idLibrary (fun _ => notFound)
    (map build [CallWithPort "9090"; CallWithZapLogger 1%nat])
  = RunHttpServer idLibrary (fun _ => notFound)
      (map build [CallWithZapLogger 1%nat; CallWithPort "9090"]).
Proof.
  apply (different_options_commute unit idLibrary (fun _ => notFound) [] []
           (CallWithPort "9090") (CallWithZapLogger 1%nat)).
  discriminate.
Defined.

(** X15.  Of two neighbouring options built by the same constructor the
    second one counts: the first can be left out. *)
Theorem later_option_overrides
    (World : Type) (lib : Library World)
    (createHandler : Mux World -> Handler World)
    (pre post : list (OptionCall World)) (a b : OptionCall World) :
  kindOf a = kindOf b ->
  RunHttpServer lib createHandler (map build (pre ++ a :: b :: post))
  = RunHttpServer lib createHandler (map build (pre ++ b :: post)).
Proof.
  intro H. apply RunHttpServer_by_config.
  rewrite !mutateAll_app. simpl. now rewrite later_build_counts.
Qed.

Lemma later_option_overrides_witness :
  RunHttpServer idLibrary (fun _ => notFound)
    (map build [CallWithZapLogger 1%nat; CallWithZapLogger 2%nat])
  = RunHttpServer idLibrary (fun _ => notFound)
      (map build [CallWithZapLogger 2%nat]).
Proof.
  exact (later_option_overrides unit idLibrary (fun _ => notFound) [] []
           (CallWithZapLogger 1%nat) (CallWithZapLogger 2%nat) eq_refl).
Defined.

(** X16.  With a logger among the options, the request logger of the last
    one given is the last middleware of the stack, after the defaults and
    the CORS handler, and no warning is printed.  Without one the warning
    is printed and the stack holds defaults and the CORS handler only. *)
Theorem request_logger_is_attached_last
    (World : Type) (lib : Library World)
    (createHandler : Mux World -> Handler World)
    (pre post calls : list (OptionCall World)) (l : zap.Logger) :
  (without 4 post = true ->
   exists st front,
     RunHttpServer lib createHandler (map build (pre ++ CallWithZapLogger l :: post))
     = Serve st
     /\ stdlog st = []
     /\ stack (apiRouter st) = front ++ [RequestLogger l])
  /\ (without 4 calls = true ->
      exists st,
        RunHttpServer lib createHandler (map build calls) = Serve st
        /\ stdlog st = ["WARN: no logger is set"]
        /\ forall mw,
             In mw (stack (apiRouter st)) ->
             In mw (DefaultMiddlewares lib)
             \/ mw = cors_Handler lib DefaultCorsOption).
Proof.
  split; intro H.
  - destruct (RunHttpServer_build World lib createHandler
                (pre ++ CallWithZapLogger l :: post)) as [st Hst].
    destruct (stack_with_logger World lib createHandler _ st l Hst)
      as (Hout & front & Hstack).
    { rewrite mutateAll_app. simpl. now rewrite logger_without. }
    exists st, front. auto.
  - destruct (RunHttpServer_build World lib createHandler calls) as [st Hst].
    exists st. split; [exact Hst|].
    assert (Hl : logger (mutateAll (map build calls) initial) = nopLogger)
      by now rewrite logger_without.
    split.
    + exact (proj1 (stack_without_logger World lib createHandler _ st
                      (cors_Handler lib DefaultCorsOption) Hst Hl)).
    + intro mw.
      exact (proj2 (stack_without_logger World lib createHandler _ st mw Hst Hl)).
Qed.

Lemma request_logger_is_attached_last_witness :
  exists st front,
    RunHttpServer idLibrary (fun _ => notFound)
      (map build [CallWithZapLogger 1%nat; CallWithZapLogger 2%nat; CallWithPort "80"])
    = Serve st
    /\ stdlog st = []
    /\ stack (apiRouter st) = front ++ [RequestLogger 2%nat].
Proof.
  exact (proj1 (request_logger_is_attached_last unit idLibrary (fun _ => notFound)
                  [CallWithZapLogger 1%nat] [CallWithPort "80"] [] 2%nat)
           eq_refl).
Defined.

End server_more.

(* ================================================================= *)
(** ** More properties of the request logger *)

Module logger_more.
Import strings errors http middleware rest rest_spec rest_words logger_facts.

Section Facts.
Variable World : Type.
Implicit Types (next hd : Handler World) (l : zap.Logger).

Lemma replay_simulation {W1 W2 : Type} {RW1 : ResponseWriter W1}
    {RW2 : ResponseWriter W2} (R : W1 -> W2 -> Prop) cs :
  simulation R -> forall w1 w2, R w1 w2 -> R (replay cs w1) (replay cs w2).
Proof.
  intro HR. induction cs as [|c cs IH]; intros w1 w2 H; simpl.
  - exact H.
  - apply IH, HR, H.
Qed.

Lemma scripted_uniform f : uniform (scripted (World := World) f).
Proof.
  intros W1 W2 RW1 RW2 R HR w1 w2 r s H. unfold scripted.
  destruct (f r s) as [cs s']. simpl. split; [|reflexivity].
  now apply replay_simulation.
Qed.

(** Calls on two wrappers are calls on the writers behind them. *)
Lemma wrapped_simulation {W1 W2 : Type} {RW1 : ResponseWriter W1}
    {RW2 : ResponseWriter W2} (R : W1 -> W2 -> Prop) :
  simulation R -> simulation (wrapped R).
Proof.
  intros HR c [i1 h1 c1 n1] [i2 h2 c2 n2]. unfold wrapped; simpl.
  intros (Hi & -> & ->).
  destruct c as [k v | buf | code]; simpl.
  - split; [|split; reflexivity]. exact (HR (CHeaderSet k v) _ _ Hi).
  - unfold bw_Write, bw_WriteHeader; simpl. destruct h2; simpl.
    + split; [|split; reflexivity]. exact (HR (CWrite buf) _ _ Hi).
    + split; [|split; reflexivity].
      apply (HR (CWrite buf)). exact (HR (CWriteHeader StatusOK) _ _ Hi).
  - unfold bw_WriteHeader; simpl. destruct h2; simpl.
    + split; [exact Hi | split; reflexivity].
    + split; [|split; reflexivity]. exact (HR (CWriteHeader code) _ _ Hi).
Qed.

Lemma RequestLogger_uniform l next : uniform next -> uniform (RequestLogger l next).
Proof.
  intros Hn W1 W2 RW1 RW2 R HR w1 w2 r s H. unfold RequestLogger.
  destruct (Hn _ _ _ _ (wrapped R) (wrapped_simulation R HR)
              (NewWrapResponseWriter w1 (ProtoMajor r))
              (NewWrapResponseWriter w2 (ProtoMajor r)) r s)
    as [Hw Hs].
  { unfold wrapped; simpl. auto. }
  destruct (next _ _ (NewWrapResponseWriter w1 (ProtoMajor r)) r s) as [b1 s1].
  destruct (next _ _ (NewWrapResponseWriter w2 (ProtoMajor r)) r s) as [b2 s2].
  simpl in Hw, Hs. subst s2. destruct Hw as (Hi & Hh & Hc).
  unfold Status. rewrite Hc. simpl. split; [exact Hi | reflexivity].
Qed.

Lemma loggedBy_uniform loggers next : uniform next -> uniform (loggedBy loggers next).
Proof.
  intro Hn. induction loggers as [|l loggers IH]; simpl.
  - exact Hn.
  - now apply RequestLogger_uniform.
Qed.

Lemma tracks_simulation : simulation tracks.
Proof. intros c b rw. apply call_tracks. Qed.

(** One logger around a uniform handler, on a pending recorder. *)
Lemma RequestLogger_around hd l r s h :
  uniform hd ->
  RequestLogger l hd _ _ (pending h) r s
  = (fst (hd _ _ (pending h) r s),
     {| now := now (snd (hd _ _ (pending h) r s));
        logs := logs (snd (hd _ _ (pending h) r s))
                ++ [logLine l r (seen (fst (hd _ _ (pending h) r s)))
                      (now (snd (hd _ _ (pending h) r s)) - now s)];
        app := app (snd (hd _ _ (pending h) r s)) |}).
Proof.
  intro Hu. unfold RequestLogger.
  destruct (Hu _ _ _ _ tracks tracks_simulation
              (NewWrapResponseWriter (pending h) (ProtoMajor r)) (pending h) r s)
    as [Ht Hs].
  { apply tracks_pending. }
  destruct (hd _ _ (NewWrapResponseWriter (pending h) (ProtoMajor r)) r s)
    as [b s1].
  destruct (hd _ _ (pending h) r s) as [w0 s0].
  simpl in Ht, Hs. subst s1. cbn [fst snd].
  pose proof (tracks_status _ _ Ht) as Hst.
  destruct Ht as (Hin & _). rewrite Hst, Hin.
  unfold logLine, Error_, Info, log_at, StatusInternalServerError.
  destruct (seen w0 >=? 500); reflexivity.
Qed.

End Facts.



End logger_more.

(* ================================================================= *)
(** ** Properties of the earlier bootstrap *)

Module common_facts.
Import strings errors http rest gostrings common.

Lemma Split_not_empty s sep : Split s sep <> [].
Proof.
  destruct s as [|c s]; simpl; [discriminate|].
  destruct (Ascii.eqb c sep); [discriminate|].
  destruct (Split s sep); discriminate.
Qed.

Lemma Join_Split s sep : Join (Split s sep) sep = s.
Proof.
  induction s as [|c s IH]; simpl; [reflexivity|].
  destruct (Ascii.eqb c sep) eqn:Hc.
  - apply Ascii.eqb_eq in Hc. subst c.
    pose proof (Split_not_empty s sep) as Hn.
    destruct (Split s sep) as [|seg segs]; [now elim Hn|].
    cbn [Join append]. cbn [Join] in IH. now rewrite IH.
  - pose proof (Split_not_empty s sep) as Hn.
    destruct (Split s sep) as [|seg segs]; [now elim Hn|].
    destruct segs as [|seg' segs]; simpl in *; now rewrite IH.
Qed.

(** X18.  The earlier bootstrap always attaches the CORS handler: the
    list [strings.Split] returns is never empty, so the early return of
    [addCorsMiddleware] is never taken.  The allowed origins are the
    segments of [CORS_ALLOWED_ORIGINS] between semicolons, and the one empty
    origin when the variable is not set.  The stack is always the same nine
    middlewares, the request logger second and the CORS handler sixth. *)
Theorem earlier_bootstrap_always_attaches_cors
    (World : Type) (lib : Library World) (Getenv : string -> string)
    (logger : zap.Logger) (port : string)
    (createHandler : Mux World -> Handler World) :
  let origins := Split (Getenv "CORS_ALLOWED_ORIGINS") semicolon in
  let corsMiddleware :=
    cors_Handler lib
      {| cors.AllowedOrigins := origins;
         cors.AllowedMethods := ["GET"; "POST"; "PUT"; "PATCH"; "DELETE"; "OPTIONS"];
         cors.AllowedHeaders := ["Accept"; "Authorization"; "Content-Type"; "X-CSRF-Token"];
         cors.ExposedHeaders := ["Link"];
         cors.AllowCredentials := true;
         cors.MaxAge := 300 |} in
  (forall router,
     stack (addCorsMiddleware lib Getenv router) = stack router ++ [corsMiddleware])
  /\ stack (fst (RunHttpServer lib Getenv logger port createHandler))
     = [ Timeout World lib 60; RequestLogger logger; RequestID World lib;
         RealIP World lib; Recoverer World lib; corsMiddleware;
         SetHeader World lib "X-Content-Type-Options" "nosniff";
         SetHeader World lib "X-Frame-Options" "deny"; NoCache World lib ]
  /\ Addr (snd (RunHttpServer lib Getenv logger port createHandler))
     = (":" ++ port)%string
  /\ Join origins semicolon = Getenv "CORS_ALLOWED_ORIGINS"
  /\ (Getenv "CORS_ALLOWED_ORIGINS" = EmptyString -> origins = [EmptyString]).
Proof.
  cbv zeta.
  assert (Hc : forall router,
    stack (addCorsMiddleware lib Getenv router)
    = stack router
      ++ [cors_Handler lib
            {| cors.AllowedOrigins := Split (Getenv "CORS_ALLOWED_ORIGINS") semicolon;
               cors.AllowedMethods := ["GET"; "POST"; "PUT"; "PATCH"; "DELETE"; "OPTIONS"];
               cors.AllowedHeaders := ["Accept"; "Authorization"; "Content-Type"; "X-CSRF-Token"];
               cors.ExposedHeaders := ["Link"];
               cors.AllowCredentials := true;
               cors.MaxAge := 300 |}]).
  { intro router. unfold addCorsMiddleware.
    pose proof (Split_not_empty (Getenv "CORS_ALLOWED_ORIGINS") semicolon) as Hn.
    destruct (Split (Getenv "CORS_ALLOWED_ORIGINS") semicolon) as [|seg segs];
      [now elim Hn | reflexivity]. }
  split; [exact Hc|]. split.
  - unfold RunHttpServer, setDefaultMiddlewares. cbn [fst].
    unfold Use at 1 2. cbn [stack]. rewrite Hc. reflexivity.
  - split; [reflexivity|]. split; [apply Join_Split|].
    intros ->. reflexivity.
Qed.

Lemma earlier_bootstrap_always_attaches_cors_witness :
  Split EmptyString semicolon = [EmptyString]
  /\ Split "https://a.example;https://b.example" semicolon
     = ["https://a.example"; "https://b.example"]%string
  /\ List.length
       (stack (fst (RunHttpServer rest_spec.idLibrary (fun _ => EmptyString)
                      1%nat "9091" (fun _ => rest_spec.notFound)))) = 9%nat.
Proof.
  split.
  - exact (proj2 (proj2 (proj2 (proj2
             (earlier_bootstrap_always_attaches_cors unit rest_spec.idLibrary
                (fun _ => EmptyString) 1%nat "9091"
                (fun _ => rest_spec.notFound))))) eq_refl).
  - split; reflexivity.
Defined.

End common_facts.
